(** * Verification of the .datc64 format analysis tool

    Shallow embedding of [scripts/analyze_datc64_format.py]: the hex dump
    helper, the header analysis and the heuristic column type inference.

    Python values are modelled as follows:
    - [bytes] objects are lists of [Byte.byte];
    - Python integers are unbounded, hence [Z];
    - a dictionary entry that may hold [None] is an [option];
    - a call either returns a value or raises an exception ([outcome]);
      the third constructor only marks an exhausted loop budget of the
      model and is shown never to occur;
    - [print] calls are recorded as a list of structured lines, one
      constructor per [print] statement of the source; the console is
      assumed to accept every line (the only text that is not plain
      ASCII is printed inside a [try] block that catches everything);
    - the files are read once and handed over as byte strings. *)

From Stdlib Require Import ZArith List Bool Lia String Ascii.
From Stdlib Require Import Strings.Byte.
Import ListNotations.
Local Open Scope Z_scope.

(** ** Outcomes of a Python call *)

Inductive exn : Type :=
| StructError   (* struct.error: buffer of the wrong size *)
| IndexError    (* sequence index out of range *)
| ValueError    (* range() arg 3 must not be zero *)
| TypeError.    (* ordering comparison against None *)

Inductive outcome (A : Type) : Type :=
| Returns (a : A)
| Raises (e : exn)
| OutOfFuel.

Arguments Returns {A} a.
Arguments Raises {A} e.
Arguments OutOfFuel {A}.

Definition bind {A B : Type} (c : outcome A) (k : A -> outcome B) : outcome B :=
  match c with
  | Returns a => k a
  | Raises e => Raises e
  | OutOfFuel => OutOfFuel
  end.

Notation "x <- c ;; k" := (bind c (fun x => k))
  (at level 61, c at next level, right associativity).
Notation "' pat <- c ;; k" := (bind c (fun x => match x with pat => k end))
  (at level 61, pat pattern, c at next level, right associativity).

(** ** Byte strings *)

Definition bytes := list byte.

Definition byte_val (b : byte) : Z := Z.of_N (Byte.to_N b).

Definition len {A : Type} (l : list A) : Z := Z.of_nat (List.length l).

(** Index normalisation of a Python slice bound: a negative bound counts
    from the end, and the result is clamped to [0, len]. *)
Definition clamp (n i : Z) : Z :=
  if i <? 0 then Z.max (i + n) 0 else Z.min i n.

(** [data[start:stop]] *)
Definition slice {A : Type} (data : list A) (start stop : Z) : list A :=
  let a := clamp (len data) start in
  let b := clamp (len data) stop in
  firstn (Z.to_nat (b - a)) (skipn (Z.to_nat a) data).

(** [data[start:]] *)
Definition slice_from {A : Type} (data : list A) (start : Z) : list A :=
  skipn (Z.to_nat (clamp (len data) start)) data.

(** [data[i]] *)
Definition getitem (data : bytes) (i : Z) : outcome byte :=
  let k := if i <? 0 then i + len data else i in
  if (k <? 0) || (len data <=? k) then Raises IndexError
  else match nth_error data (Z.to_nat k) with
       | Some b => Returns b
       | None => Raises IndexError
       end.

Definition byte_eqb (a b : byte) : bool := Byte.eqb a b.

(** [l] starts with [sub]. *)
Fixpoint starts_with (sub l : bytes) : bool :=
  match sub, l with
  | [], _ => true
  | _ :: _, [] => false
  | x :: sub', y :: l' => byte_eqb x y && starts_with sub' l'
  end.

(** Scan for [sub], [i] being the index of the head of [l]. *)
Fixpoint find_from (sub l : bytes) (i : Z) : Z :=
  if starts_with sub l then i
  else match l with
       | [] => -1
       | _ :: l' => find_from sub l' (i + 1)
       end.

(** [data.find(sub, start)] *)
Definition find (data sub : bytes) (start : Z) : Z :=
  let s := clamp (len data) start in
  if (0 <=? start) && (len data <? start) then -1
  else find_from sub (skipn (Z.to_nat s) data) s.

(** Little-endian unsigned value of a byte string. *)
Fixpoint le_uint (b : bytes) : Z :=
  match b with
  | [] => 0
  | x :: t => byte_val x + 256 * le_uint t
  end.

(** [struct.unpack('<I', b)[0]] *)
Definition unpack_I (b : bytes) : outcome Z :=
  if len b =? 4 then Returns (le_uint b) else Raises StructError.

(** [struct.unpack('<Q', b)[0]] *)
Definition unpack_Q (b : bytes) : outcome Z :=
  if len b =? 8 then Returns (le_uint b) else Raises StructError.

(** [struct.unpack('<q', b)[0]] *)
Definition unpack_q (b : bytes) : outcome Z :=
  if len b =? 8 then
    let u := le_uint b in
    Returns (if u <? 2 ^ 63 then u else u - 2 ^ 64)
  else Raises StructError.

Definition DAT_MAGIC_NUMBER : bytes :=
  [xbb; xbb; xbb; xbb; xbb; xbb; xbb; xbb].

(** ** Header analysis *)

(** The dictionary returned by [analyze_header], without its [file_path]
    entry (the model starts from the bytes read from that path). *)
Record header_info : Type := mk_header_info {
  file_size : Z;
  row_count : Z;
  magic_offset : option Z;
  table_offset : Z;
  table_length : option Z;
  record_length : option Z;
  data_section_offset : option Z;
  data_section_size : option Z
}.

(** Truth value of an entry that holds an integer or [None]. *)
Definition truthy (v : option Z) : bool :=
  match v with
  | Some n => negb (n =? 0)
  | None => false
  end.

Definition analyze_header (data : bytes) : outcome header_info :=
  let file_size := len data in
  row_count <- unpack_I (slice data 0 4) ;;
  let magic_offset := find data DAT_MAGIC_NUMBER 0 in
  let '(magic_offset, table_length, record_length, data_section_size) :=
    if magic_offset =? -1 then
      (None, None, None, None)
    else
      let table_length := magic_offset - 4 in
      let record_length :=
        if 0 <? row_count then table_length / row_count else 0 in
      let data_section_size := file_size - magic_offset - 8 in
      (Some magic_offset, Some table_length, Some record_length,
       Some data_section_size) in
  Returns {|
    file_size := file_size;
    row_count := row_count;
    magic_offset := magic_offset;
    table_offset := 4;
    table_length := table_length;
    record_length := record_length;
    data_section_offset :=
      if truthy magic_offset
      then option_map (fun m => m + 8) magic_offset
      else None;
    data_section_size := data_section_size
  |}.

(** ** Text formatting *)

Definition hex_digit (d : Z) : ascii :=
  match d with
  | 0 => "0" | 1 => "1" | 2 => "2" | 3 => "3"
  | 4 => "4" | 5 => "5" | 6 => "6" | 7 => "7"
  | 8 => "8" | 9 => "9" | 10 => "a" | 11 => "b"
  | 12 => "c" | 13 => "d" | 14 => "e" | _ => "f"
  end%char.

Fixpoint hex_digits (fuel : nat) (z : Z) (acc : string) : string :=
  match fuel with
  | O => acc
  | S fuel' =>
      let acc' := String (hex_digit (z mod 16)) acc in
      if z / 16 =? 0 then acc' else hex_digits fuel' (z / 16) acc'
  end.

(** Lowercase hexadecimal digits of a non-negative integer. *)
Definition to_hex (z : Z) : string :=
  hex_digits (S (Z.to_nat (Z.log2 z))) z "".

Fixpoint zeros (n : nat) : string :=
  match n with
  | O => ""%string
  | S n' => String "0" (zeros n')
  end.

(** [f"{z:0{width}x}"]: sign-aware zero padding to [width] characters. *)
Definition format_x (width : Z) (z : Z) : string :=
  let digits := to_hex (Z.abs z) in
  let sign := if z <? 0 then "-"%string else ""%string in
  let pad := width - Z.of_nat (String.length sign)
                   - Z.of_nat (String.length digits) in
  (sign ++ zeros (Z.to_nat pad) ++ digits)%string.

(** [chr(byte)] for a value below 256. *)
Definition chr (b : byte) : string := String (ascii_of_byte b) "".

Definition newline : string := String "010" "".

(** [b.hex()] *)
Definition hex (b : bytes) : string :=
  String.concat "" (map (fun x => format_x 2 (byte_val x)) b).

(** ** Loops *)

(** [range(start, stop, step)] as the list of values it yields. *)
Definition py_range (start stop step : Z) : outcome (list Z) :=
  if step =? 0 then Raises ValueError
  else
    let n := if 0 <? step
             then (stop - start + step - 1) / step
             else (start - stop - step - 1) / (- step) in
    Returns (map (fun k => start + Z.of_nat k * step) (seq 0 (Z.to_nat n))).

(** [for x in l: s = body(x, s)] *)
Fixpoint for_each {A S : Type} (l : list A) (body : A -> S -> outcome S)
    (s : S) : outcome S :=
  match l with
  | [] => Returns s
  | x :: l' => s' <- body x s ;; for_each l' body s'
  end.

(** ** Hex dump *)

(** The body of the inner loop of [hexdump], for the row that starts at
    [i]: one position [j] of the row, appended to both columns. *)
Definition hexdump_cell (data : bytes) (end_ i : Z) (j : Z)
    (parts : string * string) : outcome (string * string) :=
  let '(hex_part, ascii_part) := parts in
  if i + j <? end_ then
    byte <- getitem data (i + j) ;;
    let shown :=
      if (32 <=? byte_val byte) && (byte_val byte <? 127)
      then chr byte else "."%string in
    Returns ((hex_part ++ format_x 2 (byte_val byte) ++ " ")%string,
             (ascii_part ++ shown)%string)
  else
    Returns ((hex_part ++ "   ")%string, ascii_part).

Definition hexdump (data : bytes) (offset length width : Z) : outcome string :=
  let end_ := Z.min (offset + length) (len data) in
  rows <- py_range offset end_ width ;;
  lines <- for_each rows (fun i lines =>
    let line := (format_x 8 i ++ "  ")%string in
    cols <- py_range 0 width 1 ;;
    '(hex_part, ascii_part) <- for_each cols (hexdump_cell data end_ i)
                                 (""%string, ""%string) ;;
    Returns (lines ++ [(line ++ hex_part ++ " |" ++ ascii_part ++ "|")%string]))
    [] ;;
  Returns (String.concat newline lines).

(** ** Heuristic column type inference *)

(** One constructor per [print] statement of [infer_column_types]. *)
Inductive line : Type :=
| CannotInfer                         (* Cannot infer columns without ... *)
| Banner (record_length : Z)          (* Column Type Inference (...) *)
| ColAt (col_num offset : Z)          (* Col {col_num} @ offset {offset}: *)
| U64 (val_u64 : Z)                   (* u64: {val_u64} (0x...) *)
| ListPointer (count offset : Z)      (* Likely: List pointer (...) *)
| DataSectionRead                     (* Data section read: *)
| SampleHex (digits : string)         (* {sample.hex()[:128]} *)
| StringPointer (preview : list Z)    (* Likely: String pointer -> '...' *)
| DataPointer (offset : Z)            (* Possibly: Data pointer (...) *)
| NullValue                           (* Likely: Null value (...) *)
| U32Halves (val_u32_1 val_u32_2 : Z) (* u32[0]: ..., u32[1]: ... *)
| IntegerValue.                       (* Likely: Integer value *)

(** [b.decode('utf-16-le')], as the list of code points; [None] stands
    for [UnicodeDecodeError] (odd length, or an unpaired surrogate). *)
Fixpoint decode_utf16le (b : bytes) : option (list Z) :=
  match b with
  | [] => Some []
  | [_] => None
  | b0 :: b1 :: rest =>
      let u := byte_val b0 + 256 * byte_val b1 in
      if (u <? 0xD800) || (0xDFFF <? u) then
        option_map (cons u) (decode_utf16le rest)
      else if u <? 0xDC00 then
        match rest with
        | b2 :: b3 :: rest' =>
            let u2 := byte_val b2 + 256 * byte_val b3 in
            if (0xDC00 <=? u2) && (u2 <=? 0xDFFF) then
              option_map
                (cons (0x10000 + (u - 0xD800) * 1024 + (u2 - 0xDC00)))
                (decode_utf16le rest')
            else None
        | _ => None
        end
      else None
  end.

(** An entry used as an integer operand of an ordering comparison. *)
Definition as_int (v : option Z) : outcome Z :=
  match v with
  | Some n => Returns n
  | None => Raises TypeError
  end.

(** [0 < v < bound], a chained comparison: the second test is only
    evaluated when the first one holds. *)
Definition in_range (v : Z) (bound : option Z) : outcome bool :=
  if 0 <? v then n <- as_int bound ;; Returns (v <? n)
  else Returns false.

Definition null_patterns : list Z :=
  [0; 0xFEFEFEFEFEFEFEFE; 0xA6; 0xA600000000000000].

Definition is_null_pattern (v : Z) : bool :=
  existsb (Z.eqb v) null_patterns.

Section Inference.

(** The Unicode character database behind [str.isprintable], per code
    point; it is a table of the Python runtime, not of this program. *)
Variable char_isprintable : Z -> bool.

(** [s.isprintable()] *)
Definition str_isprintable (s : list Z) : bool := forallb char_isprintable s.

(** [any(c in s for c in '\n\r\t ')] *)
Definition has_whitespace (s : list Z) : bool :=
  existsb (fun c => existsb (Z.eqb c) s) [10; 13; 9; 32].

(** The [if is_pointer:] branch: the whole [try] block, whose handlers
    catch every exception. *)
Definition describe_pointer (data_section : bytes) (val_u64 : Z) : line :=
  let string_offset := val_u64 in
  let end_offset := find data_section [x00; x00; x00; x00] string_offset in
  if negb (end_offset =? -1) && (end_offset - string_offset <? 1000) then
    let string_data := slice data_section string_offset end_offset in
    if len string_data mod 2 =? 0 then
      match decode_utf16le string_data with
      | Some decoded =>
          if str_isprintable decoded || has_whitespace decoded
          then StringPointer (slice decoded 0 50)
          else DataPointer val_u64
      | None => DataPointer val_u64
      end
    else DataPointer val_u64
  else DataPointer val_u64.

(** One iteration of the [while] loop at [offset]: the lines it prints
    and the values of [offset] and [col_num] at the next loop test. *)
Definition loop_body (first_row data_section : bytes)
    (record_length : Z) (data_section_size : option Z)
    (offset col_num : Z) : outcome (list line * Z * Z) :=
  if offset + 8 <=? record_length then
    val_u64 <- unpack_Q (slice first_row offset (offset + 8)) ;;
    val_i64 <- unpack_q (slice first_row offset (offset + 8)) ;;
    is_pointer <- in_range val_u64 data_section_size ;;
    let is_null := is_null_pattern val_u64 in
    let out := [ColAt col_num offset; U64 val_u64] in
    let classify :=
      if is_pointer then
        Returns (out ++ [describe_pointer data_section val_u64],
                 offset + 8, col_num + 1)
      else if is_null then
        Returns (out ++ [NullValue], offset + 8, col_num + 1)
      else
        val_u32_1 <- unpack_I (slice first_row offset (offset + 4)) ;;
        val_u32_2 <- unpack_I (slice first_row (offset + 4) (offset + 8)) ;;
        Returns (out ++ [U32Halves val_u32_1 val_u32_2; IntegerValue],
                 offset + 8, col_num + 1) in
    if is_pointer && (offset + 16 <=? record_length) then
      next_val <- unpack_Q (slice first_row (offset + 8) (offset + 16)) ;;
      next_ok <- in_range next_val data_section_size ;;
      if next_ok then
        let out := out ++ [ListPointer val_u64 next_val] in
        size <- as_int data_section_size ;;
        let out :=
          if next_val + val_u64 * 8 <=? size then
            let sample :=
              slice data_section next_val
                    (next_val + Z.min 64 (val_u64 * 8)) in
            out ++ [DataSectionRead; SampleHex (substring 0 128 (hex sample))]
          else out in
        (* offset += 8; col_num += 1; continue *)
        Returns (out, offset + 8, col_num + 1)
      else classify
    else classify
  else
    Returns ([], offset + 8, col_num + 1).

(** [while offset < record_length: ...] *)
Fixpoint while_loop (fuel : nat) (first_row data_section : bytes)
    (record_length : Z) (data_section_size : option Z)
    (offset col_num : Z) : outcome (list line) :=
  if offset <? record_length then
    match fuel with
    | O => OutOfFuel
    | S fuel' =>
        '(out, offset', col_num') <-
          loop_body first_row data_section record_length data_section_size
                    offset col_num ;;
        rest <- while_loop fuel' first_row data_section record_length
                           data_section_size offset' col_num' ;;
        Returns (out ++ rest)
    end
  else Returns [].

Definition infer_column_types (data : bytes) (info : header_info)
    : outcome (list line) :=
  match magic_offset info, record_length info with
  | Some magic, Some rl =>
      if (magic =? 0) || (rl =? 0) then Returns [CannotInfer]
      else
        let table_data := slice data 4 magic in
        let data_section :=
          match data_section_offset info with
          | Some data_section_start => slice_from data data_section_start
          | None => data
          end in
        let first_row := slice table_data 0 rl in
        out <- while_loop (Z.to_nat rl) first_row data_section rl
                          (data_section_size info) 0 0 ;;
        Returns (Banner rl :: out)
  | _, _ => Returns [CannotInfer]
  end.

End Inference.

(** ** Pattern detection *)

(** Scan for non-overlapping occurrences of [sub]; after a match the
    next [skip] positions lie inside it and are passed over. *)
Fixpoint count_from (sub l : bytes) (skip : nat) : Z :=
  match l with
  | [] => 0
  | _ :: l' =>
      match skip with
      | S skip' => count_from sub l' skip'
      | O =>
          if starts_with sub l
          then 1 + count_from sub l' (List.length sub - 1)
          else count_from sub l' 0
      end
  end.

(** [data.count(sub)] *)
Definition count (data sub : bytes) : Z :=
  match sub with
  | [] => len data + 1
  | _ :: _ => count_from sub data 0
  end.

(** The dictionary built by [detect_patterns]; an absent key is [None]. *)
Module Patterns.

Record t : Type := mk {
  null_patterns : option (list (string * Z));
  first_row_hex : option string
}.

Definition empty : t := {| null_patterns := None; first_row_hex := None |}.

(** Truth value of the dictionary: it holds at least one key. *)
Definition nonempty (p : t) : bool :=
  match null_patterns p, first_row_hex p with
  | None, None => false
  | _, _ => true
  end.

End Patterns.

Definition common_null_patterns : list bytes :=
  [[xfe; xfe; xfe; xfe]; [x00; x00; x00; x00]; [xff; xff; xff; xff]].

Definition detect_patterns (data : bytes) (info : header_info) : Patterns.t :=
  match magic_offset info with
  | Some magic =>
      if magic =? 0 then Patterns.empty
      else
        let table_data := slice data 4 magic in
        let null_patterns :=
          fold_left
            (fun found pattern =>
               let count := count table_data pattern in
               if 0 <? count then found ++ [(hex pattern, count)]
               else found)
            common_null_patterns [] in
        let first_row_hex :=
          match record_length info with
          | Some rl =>
              if negb (rl =? 0) && (4 <=? rl)
              then Some (hex (slice table_data 0 rl))
              else None
          | None => None
          end in
        {| Patterns.null_patterns := Some null_patterns;
           Patterns.first_row_hex := first_row_hex |}
  | None => Patterns.empty
  end.

(** ** Comparison of files *)

(** [s[start:stop]] on text, for bounds that are not negative. *)
Definition str_slice (s : string) (start stop : Z) : string :=
  substring (Z.to_nat start) (Z.to_nat (stop - start)) s.

(** One constructor per [print] statement of [compare_files]; the lines
    of [infer_column_types] are embedded as they are. *)
Inductive item : Type :=
| Rule                               (* '=' * 80 *)
| Heading (text : string)            (* a fixed line of text *)
| FileName (name : string)           (* File: {file_path.name} *)
| FileSize (n : Z)                   (* File size: ... bytes *)
| RowCount (n : Z)                   (* Row count: ... *)
| MagicOffset (m : Z)                (* Magic number offset: m (0x...) *)
| MagicNotFound                      (* Magic number offset: NOT FOUND *)
| TableOffset (n : Z)                (* Table offset: ... *)
| TableLength (n : option Z)         (* Table length: ... bytes *)
| RecordLength (n : option Z)        (* Record length: ... bytes *)
| DataSectionOffset (n : option Z)   (* Data section offset: ... *)
| DataSectionSize (n : option Z)     (* Data section size: ... bytes *)
| Dump (text : string)               (* print(hexdump(...)) *)
| NullPatternCount (pattern : string) (count : Z)
                                     (* {pattern}: {count} occurrences *)
| FirstRowChunk (spaced : string)    (* the first row, 16 bytes a line *)
| Inferred (l : line)                (* a line of infer_column_types *)
| Blank.                             (* print() *)

(** The lines printed for the key first_row_hex: 32 hex digits a line,
    a space between bytes. *)
Definition first_row_chunks (first_row_hex : string) : outcome (list item) :=
  starts <- py_range 0 (Z.of_nat (String.length first_row_hex)) 32 ;;
  for_each starts (fun i printed =>
    let chunk := str_slice first_row_hex i (i + 32) in
    pairs <- py_range 0 (Z.of_nat (String.length chunk)) 2 ;;
    let spaced :=
      String.concat " " (map (fun j => str_slice chunk j (j + 2)) pairs) in
    Returns (printed ++ [FirstRowChunk spaced])) [].

(** The lines under "Header Information:". *)
Definition print_header_info (info : header_info) : list item :=
  let out :=
    [Heading "Header Information:";
     FileSize (file_size info); RowCount (row_count info);
     match magic_offset info with
     | Some m => if m =? 0 then MagicNotFound else MagicOffset m
     | None => MagicNotFound
     end] in
  if truthy (magic_offset info) then
    out ++ [TableOffset (table_offset info);
            TableLength (table_length info);
            RecordLength (record_length info);
            DataSectionOffset (data_section_offset info);
            DataSectionSize (data_section_size info)]
  else out.

(** The hex dumps: the first 256 bytes and, when the header has both a
    magic offset and a data section offset, the 64 bytes that start 32
    bytes before the sentinel and the first 128 bytes of the data
    section. *)
Definition print_dumps (data : bytes) (info : header_info)
    : outcome (list item) :=
  first_256 <- hexdump data 0 256 16 ;;
  let out :=
    [Heading "First 256 bytes (header + table start):"; Dump first_256] in
  match magic_offset info, data_section_offset info with
  | Some magic, Some data_section_start =>
      if negb (magic =? 0) && negb (data_section_start =? 0) then
        let magic_start := Z.max 0 (magic - 32) in
        magic_region <- hexdump data magic_start 64 16 ;;
        data_start <- hexdump data data_section_start 128 16 ;;
        Returns (out ++ [Heading "Magic number region:"; Dump magic_region;
                         Heading "Data section start:"; Dump data_start])
      else Returns out
  | _, _ => Returns out
  end.

(** The lines under "Pattern Detection:", printed when the dictionary
    of [detect_patterns] is not empty. *)
Definition print_patterns (patterns : Patterns.t) : outcome (list item) :=
  if Patterns.nonempty patterns then
    let out := [Heading "Pattern Detection:"] in
    let out :=
      match Patterns.null_patterns patterns with
      | Some (p :: found) =>
          out ++ [Heading "  Null patterns found:"] ++
          map (fun '(pattern, count) => NullPatternCount pattern count)
              (p :: found)
      | _ => out
      end in
    match Patterns.first_row_hex patterns with
    | Some first_row_hex =>
        chunks <- first_row_chunks first_row_hex ;;
        Returns (out ++ [Heading "  First row (hex):"] ++ chunks)
    | None => Returns out
    end
  else Returns [].

Section Comparison.

Variable char_isprintable : Z -> bool.

(** The body of the loop of [compare_files] for one file, given by its
    name and its content. *)
Definition compare_file (name : string) (data : bytes)
    : outcome (list item) :=
  info <- analyze_header data ;;
  dumps <- print_dumps data info ;;
  patterns <- print_patterns (detect_patterns data info) ;;
  inferred <- infer_column_types char_isprintable data info ;;
  Returns ([Rule; FileName name; Rule] ++ print_header_info info ++
           dumps ++ patterns ++ map Inferred inferred ++ [Blank]).


End Comparison.

(** * Vocabulary of the properties *)

(** ** Rows of the hex dump *)

(** The character shown for a byte in the ASCII column. *)
Definition shown_char (b : byte) : ascii :=
  if (32 <=? byte_val b) && (byte_val b <? 127)
  then ascii_of_byte b else "."%char.

(** The hex column of a row: two digits and a space per byte. *)
Fixpoint hex_cells (chunk : bytes) : string :=
  match chunk with
  | [] => ""%string
  | b :: chunk' => (format_x 2 (byte_val b) ++ " " ++ hex_cells chunk')%string
  end.

(** Three spaces for each position past the end of the dump. *)
Fixpoint blanks (n : nat) : string :=
  match n with
  | O => ""%string
  | S n' => ("   " ++ blanks n')%string
  end.

(** The row that starts at index [i]; it renders the bytes
    [data[i : min(i + width, end_)]]. *)
Definition dump_row (data : bytes) (end_ width i : Z) : string :=
  let chunk := slice data i (Z.min (i + width) end_) in
  (format_x 8 i ++ "  " ++
   (hex_cells chunk ++ blanks (Z.to_nat (width - len chunk))) ++
   " |" ++ string_of_list_ascii (map shown_char chunk) ++ "|")%string.

(** ** Lines of the inference report *)

(** Lines that announce a pointer of some kind. *)
Definition is_pointer_line (l : line) : bool :=
  match l with
  | ListPointer _ _ | StringPointer _ | DataPointer _ => true
  | _ => false
  end.

(** The classification printed for a column is that of a pointer. *)
Definition reports_pointer (cls : list line) : bool :=
  match cls with
  | l :: _ => is_pointer_line l
  | [] => false
  end.

Section StrideLines.

Variable char_isprintable : Z -> bool.
Variables first_row data_section : bytes.
Variables rl dss : Z.

(** The classification lines of the stride at [offset], read off the
    branches of the loop body. *)
Definition classification (offset : Z) : list line :=
  let v := le_uint (slice first_row offset (offset + 8)) in
  let next := le_uint (slice first_row (offset + 8) (offset + 16)) in
  if (0 <? v) && (v <? dss) then
    if (offset + 16 <=? rl) && ((0 <? next) && (next <? dss)) then
      ListPointer v next ::
      (if next + v * 8 <=? dss then
         [DataSectionRead;
          SampleHex
            (substring 0 128
               (hex (slice data_section next (next + Z.min 64 (v * 8)))))]
       else [])
    else [describe_pointer char_isprintable data_section v]
  else if is_null_pattern v then [NullValue]
  else [U32Halves (v mod 2 ^ 32) (v / 2 ^ 32); IntegerValue].

(** Everything printed for stride number [k], which starts at [8 * k]. *)
Definition stride_lines (k : nat) : list line :=
  let offset := 8 * Z.of_nat k in
  if offset + 8 <=? rl then
    ColAt (Z.of_nat k) offset ::
    U64 (le_uint (slice first_row offset (offset + 8))) ::
    classification offset
  else [].

End StrideLines.

(** ** Inputs used in the examples below *)

(** Two rows announced, a 3-byte table, the sentinel, no payload. *)
Definition misaligned_file : bytes :=
  [x02; x00; x00; x00; x01; x02; x03;
   xbb; xbb; xbb; xbb; xbb; xbb; xbb; xbb].

(** What [analyze_header] returns for it. *)
Definition misaligned_header : header_info :=
  {| file_size := 15;
     row_count := 2;
     magic_offset := Some 7;
     table_offset := 4;
     table_length := Some 3;
     record_length := Some 1;
     data_section_offset := Some 15;
     data_section_size := Some 0 |}.

(** Four bytes and no sentinel. *)
Definition no_magic_file : bytes := [x00; x00; x00; x00].

(** A file that consists of the sentinel alone. *)
Definition magic_only_file : bytes :=
  [xbb; xbb; xbb; xbb; xbb; xbb; xbb; xbb].

(** What [analyze_header] returns for it. *)
Definition magic_only_header : header_info :=
  {| file_size := 8;
     row_count := 3149642683;
     magic_offset := Some 0;
     table_offset := 4;
     table_length := Some (-4);
     record_length := Some (-1);
     data_section_offset := None;
     data_section_size := Some 0 |}.

(** A record holding the pair (count = 1, offset = 2) and a payload of
    16 bytes, so that the list it points to lies inside the payload. *)
Definition preview_file : bytes :=
  [x01; x00; x00; x00;
   x01; x00; x00; x00; x00; x00; x00; x00;
   x02; x00; x00; x00; x00; x00; x00; x00;
   xbb; xbb; xbb; xbb; xbb; xbb; xbb; xbb;
   x10; x11; x12; x13; x14; x15; x16; x17;
   x18; x19; x1a; x1b; x1c; x1d; x1e; x1f].

Definition preview_header : header_info :=
  {| file_size := 44;
     row_count := 1;
     magic_offset := Some 20;
     table_offset := 4;
     table_length := Some 16;
     record_length := Some 16;
     data_section_offset := Some 28;
     data_section_size := Some 16 |}.

(** Lines that belong to the report of a pointer: the pointer lines and
    the two lines of a list preview. *)
Definition is_pointer_report_line (l : line) : bool :=
  match l with
  | ListPointer _ _ | StringPointer _ | DataPointer _ => true
  | DataSectionRead | SampleHex _ => true
  | _ => false
  end.

(** Lines that open the report of a column. *)
Definition is_column_header (l : line) : bool :=
  match l with
  | ColAt _ _ => true
  | _ => false
  end.

(** A record of 16 bytes shaped like the first row of acts.datc64, a
    count of 8 followed by the offset 20, and a 24-byte payload. *)
Definition list_pointer_file : bytes :=
  [x01; x00; x00; x00;
   x08; x00; x00; x00; x00; x00; x00; x00;
   x14; x00; x00; x00; x00; x00; x00; x00;
   xbb; xbb; xbb; xbb; xbb; xbb; xbb; xbb;
   x41; x00; x63; x00; x74; x00; x31; x00; x00; x00; x00; x00;
   x00; x00; x00; x00; x00; x00; x00; x00; x00; x00; x00; x00].

Definition list_pointer_header : header_info :=
  {| file_size := 52;
     row_count := 1;
     magic_offset := Some 20;
     table_offset := 4;
     table_length := Some 16;
     record_length := Some 16;
     data_section_offset := Some 28;
     data_section_size := Some 24 |}.

(** One 8-byte record holding 0xA6, and a payload of 167 bytes. *)
Definition a6_file : bytes :=
  [x01; x00; x00; x00;
   xa6; x00; x00; x00; x00; x00; x00; x00;
   xbb; xbb; xbb; xbb; xbb; xbb; xbb; xbb] ++ repeat x00 167.

Definition a6_header : header_info :=
  {| file_size := 187;
     row_count := 1;
     magic_offset := Some 12;
     table_offset := 4;
     table_length := Some 8;
     record_length := Some 8;
     data_section_offset := Some 20;
     data_section_size := Some 167 |}.

(** One 8-byte record whose halves are 2 and 1, and no payload. *)
Definition scalar_file : bytes :=
  [x01; x00; x00; x00;
   x02; x00; x00; x00; x01; x00; x00; x00;
   xbb; xbb; xbb; xbb; xbb; xbb; xbb; xbb].

Definition scalar_header : header_info :=
  {| file_size := 20;
     row_count := 1;
     magic_offset := Some 12;
     table_offset := 4;
     table_length := Some 8;
     record_length := Some 8;
     data_section_offset := Some 20;
     data_section_size := Some 0 |}.

(** A stand-in for the character table in the examples: printable
    ASCII. *)
Definition ascii_isprintable (c : Z) : bool := (32 <=? c) && (c <? 127).

(** * Properties *)

(** ** Lists, slices and searching *)

Lemma len_nonneg {A : Type} (l : list A) : 0 <= len l.
Proof. unfold len. lia. Qed.

Lemma len_firstn {A : Type} (n : nat) (l : list A) :
  len (firstn n l) = Z.min (Z.of_nat n) (len l).
Proof. unfold len. rewrite length_firstn. lia. Qed.

Lemma len_skipn {A : Type} (n : nat) (l : list A) :
  len (skipn n l) = Z.max 0 (len l - Z.of_nat n).
Proof. unfold len. rewrite length_skipn. lia. Qed.

(** A slice with non-negative bounds is a [firstn] of a [skipn], also
    when it runs past the end of the data. *)
Lemma slice_firstn_skipn {A : Type} (data : list A) (a n : Z) :
  0 <= a -> 0 <= n ->
  slice data a (a + n) = firstn (Z.to_nat n) (skipn (Z.to_nat a) data).
Proof.
  intros Ha Hn. unfold slice, clamp.
  destruct (Z.ltb_spec a 0); [lia|].
  destruct (Z.ltb_spec (a + n) 0); [lia|].
  pose proof (len_nonneg data) as Hl.
  destruct (Z.le_gt_cases (a + n) (len data)) as [Hin | Hout].
  - rewrite !Z.min_l by lia. do 2 f_equal. lia.
  - destruct (Z.le_gt_cases a (len data)) as [Ha' | Ha'].
    + rewrite (Z.min_r (a + n)), (Z.min_l a) by lia.
      rewrite !firstn_all2; trivial;
        rewrite length_skipn; unfold len in *; lia.
    + rewrite !Z.min_r by lia. rewrite Z.sub_diag. simpl.
      rewrite (skipn_all2 (n := Z.to_nat a)) by (unfold len in *; lia).
      now destruct (Z.to_nat n).
Qed.

Lemma slice_len {A : Type} (data : list A) (a b : Z) :
  0 <= a <= b -> b <= len data -> len (slice data a b) = b - a.
Proof.
  intros Hab Hb. replace b with (a + (b - a)) by lia.
  rewrite slice_firstn_skipn by lia.
  rewrite len_firstn, len_skipn. lia.
Qed.

(** Slicing a slice. *)
Lemma slice_slice {A : Type} (data : list A) (a b c n : Z) :
  0 <= a -> 0 <= c -> 0 <= n -> a + c + n <= b ->
  slice (slice data a b) c (c + n) = slice data (a + c) (a + c + n).
Proof.
  intros Ha Hc Hn Hb.
  replace b with (a + (b - a)) by lia.
  rewrite !slice_firstn_skipn by lia.
  rewrite skipn_firstn_comm, firstn_firstn, skipn_skipn.
  f_equal; [lia|]. f_equal. lia.
Qed.

Lemma starts_with_firstn (sub l : bytes) :
  starts_with sub l = true <-> firstn (List.length sub) l = sub.
Proof.
  revert l. induction sub as [|x sub IH]; intros l; simpl.
  - tauto.
  - destruct l as [|y l]; [split; discriminate|].
    rewrite andb_true_iff, IH. unfold byte_eqb. split.
    + intros [Hxy Hl]. apply byte_dec_bl in Hxy. congruence.
    + intros H. injection H as Hxy Hl. split; trivial.
      apply byte_dec_lb. congruence.
Qed.

(** The scan returns the least position at which [sub] occurs. *)
Lemma find_from_found (sub l : bytes) (i r : Z) :
  0 <= i -> find_from sub l i = r -> r <> -1 ->
  exists n : nat,
    r = i + Z.of_nat n /\
    starts_with sub (skipn n l) = true /\
    forall n' : nat, (n' < n)%nat -> starts_with sub (skipn n' l) = false.
Proof.
  revert i. induction l as [|y l IH]; intros i Hi Hf Hr; simpl in Hf.
  - destruct (starts_with sub []) eqn:E; [|congruence].
    exists 0%nat. repeat split; [lia | exact E | intros; lia].
  - destruct (starts_with sub (y :: l)) eqn:E.
    + exists 0%nat. repeat split; [lia | exact E | intros; lia].
    + destruct (IH (i + 1) ltac:(lia) Hf Hr) as (n & Hn & Hs & Hmin).
      exists (S n). repeat split; [lia | exact Hs |].
      intros [|n'] Hlt; [exact E | apply Hmin; lia].
Qed.

Lemma find_from_absent (sub l : bytes) (i : Z) :
  0 <= i -> find_from sub l i = -1 ->
  forall n : nat, starts_with sub (skipn n l) = false.
Proof.
  revert i. induction l as [|y l IH]; intros i Hi Hf n; simpl in Hf.
  - destruct (starts_with sub []) eqn:E; [lia|].
    now destruct n.
  - destruct (starts_with sub (y :: l)) eqn:E; [lia|].
    destruct n as [|n]; [exact E|]. simpl. eapply IH; [|exact Hf]. lia.
Qed.

Lemma find_0 (data sub : bytes) :
  find data sub 0 = find_from sub data 0.
Proof.
  unfold find, clamp. simpl.
  pose proof (len_nonneg data).
  destruct (Z.ltb_spec (len data) 0); [lia|].
  rewrite Z.min_l by lia. reflexivity.
Qed.

Lemma magic_at (data : bytes) (k : nat) :
  starts_with DAT_MAGIC_NUMBER (skipn k data) = true <->
  slice data (Z.of_nat k) (Z.of_nat k + 8) = DAT_MAGIC_NUMBER.
Proof.
  rewrite starts_with_firstn, slice_firstn_skipn by lia.
  rewrite Nat2Z.id. reflexivity.
Qed.

Lemma magic_fits (data : bytes) (k : Z) :
  0 <= k -> slice data k (k + 8) = DAT_MAGIC_NUMBER -> k + 8 <= len data.
Proof.
  intros Hk H. assert (Hl : len (slice data k (k + 8)) = 8)
    by (rewrite H; reflexivity).
  rewrite slice_firstn_skipn, len_firstn, len_skipn in Hl by lia. lia.
Qed.

(** What [data.find(DAT_MAGIC_NUMBER)] returns. *)
Lemma find_magic_spec (data : bytes) :
  let r := find data DAT_MAGIC_NUMBER 0 in
  (r = -1 /\
   forall k, 0 <= k -> slice data k (k + 8) <> DAT_MAGIC_NUMBER) \/
  (0 <= r /\ r + 8 <= len data /\
   slice data r (r + 8) = DAT_MAGIC_NUMBER /\
   forall k, 0 <= k < r -> slice data k (k + 8) <> DAT_MAGIC_NUMBER).
Proof.
  intros r. subst r. rewrite find_0.
  destruct (Z.eq_dec (find_from DAT_MAGIC_NUMBER data 0) (-1)) as [E | E].
  - left. split; trivial. intros k Hk Habs.
    pose proof (find_from_absent DAT_MAGIC_NUMBER data 0 (Z.le_refl 0) E
                  (Z.to_nat k)) as Hn.
    assert (Ht : starts_with DAT_MAGIC_NUMBER (skipn (Z.to_nat k) data) = true).
    { apply magic_at. rewrite Z2Nat.id by lia. exact Habs. }
    congruence.
  - right.
    destruct (find_from_found DAT_MAGIC_NUMBER data 0 _ (Z.le_refl 0) eq_refl E)
      as (n & Hn & Hs & Hmin).
    rewrite Hn. simpl (0 + _). apply magic_at in Hs.
    split; [lia|]. split; [apply magic_fits; [lia | exact Hs]|].
    split; [exact Hs|]. intros k Hk Habs.
    specialize (Hmin (Z.to_nat k) ltac:(lia)).
    assert (Ht : starts_with DAT_MAGIC_NUMBER (skipn (Z.to_nat k) data) = true).
    { apply magic_at. rewrite Z2Nat.id by lia. exact Habs. }
    congruence.
Qed.

(** ** Header analysis *)

Lemma byte_val_range (b : byte) : 0 <= byte_val b < 256.
Proof.
  unfold byte_val. pose proof (Byte.to_N_bounded b). lia.
Qed.

Lemma le_uint_range (b : bytes) : 0 <= le_uint b < 256 ^ len b.
Proof.
  induction b as [|x b IH].
  - unfold len. simpl. rewrite ?Z.pow_0_r. lia.
  - replace (len (x :: b)) with (Z.succ (len b))
      by (unfold len; simpl List.length; lia).
    rewrite Z.pow_succ_r by apply len_nonneg.
    change (le_uint (x :: b)) with (byte_val x + 256 * le_uint b).
    pose proof (byte_val_range x). lia.
Qed.

Lemma analyze_header_short (data : bytes) :
  len data < 4 -> analyze_header data = Raises StructError.
Proof.
  intros H. unfold analyze_header, unpack_I.
  assert (Hs : len (slice data 0 4) <> 4).
  { change 4 with (0 + 4) at 1.
    rewrite slice_firstn_skipn, len_firstn, len_skipn by lia. lia. }
  apply Z.eqb_neq in Hs. rewrite Hs. reflexivity.
Qed.

(** The fields that do not depend on the sentinel. *)
Lemma analyze_header_common (data : bytes) (h : header_info) :
  analyze_header data = Returns h ->
  4 <= len data /\
  file_size h = len data /\
  row_count h = le_uint (slice data 0 4) /\
  0 <= row_count h < 2 ^ 32 /\
  table_offset h = 4.
Proof.
  unfold analyze_header, unpack_I. intros H.
  destruct (Z.eqb_spec (len (slice data 0 4)) 4) as [E | E];
    [|discriminate].
  simpl in H.
  assert (Hlen : 4 <= len data).
  { change 4 with (0 + 4) in E at 1.
    rewrite slice_firstn_skipn, len_firstn, len_skipn in E by lia. lia. }
  pose proof (le_uint_range (slice data 0 4)) as Hr. rewrite E in Hr.
  destruct (find data DAT_MAGIC_NUMBER 0 =? -1);
    injection H as <-; simpl; repeat split; trivial; lia.
Qed.

(** The fields when the sentinel is absent. *)
Lemma analyze_header_absent (data : bytes) :
  4 <= len data -> find data DAT_MAGIC_NUMBER 0 = -1 ->
  analyze_header data =
  Returns {| file_size := len data;
             row_count := le_uint (slice data 0 4);
             magic_offset := None;
             table_offset := 4;
             table_length := None;
             record_length := None;
             data_section_offset := None;
             data_section_size := None |}.
Proof.
  intros Hlen Hf. unfold analyze_header, unpack_I.
  rewrite (slice_len data 0 4) by lia. simpl.
  rewrite Hf. reflexivity.
Qed.

(** The fields when the sentinel is reported. *)
Lemma analyze_header_found (data : bytes) (h : header_info) (m : Z) :
  analyze_header data = Returns h -> magic_offset h = Some m ->
  m = find data DAT_MAGIC_NUMBER 0 /\ m <> -1 /\
  table_length h = Some (m - 4) /\
  record_length h =
    Some (if 0 <? row_count h then (m - 4) / row_count h else 0) /\
  data_section_size h = Some (len data - m - 8) /\
  data_section_offset h = (if m =? 0 then None else Some (m + 8)).
Proof.
  unfold analyze_header, unpack_I. intros H Hm.
  destruct (len (slice data 0 4) =? 4); [|discriminate].
  simpl in H.
  destruct (Z.eqb_spec (find data DAT_MAGIC_NUMBER 0) (-1)) as [E | E];
    injection H as <-; simpl in *; [discriminate|].
  injection Hm as <-. repeat split; trivial.
  now destruct (find data DAT_MAGIC_NUMBER 0 =? 0).
Qed.

(** C1, as stated, fails: with two rows announced and a 3-byte table the
    division leaves a remainder, yet the header is returned, with a
    record length of 1, and 1 * 2 is not 3. *)
Lemma misaligned_table_is_accepted :
  analyze_header misaligned_file =
  Returns {| file_size := 15;
             row_count := 2;
             magic_offset := Some 7;
             table_offset := 4;
             table_length := Some 3;
             record_length := Some 1;
             data_section_offset := Some 15;
             data_section_size := Some 0 |} /\
  3 mod 2 <> 0 /\ 1 * 2 <> 3.
Proof.
  split; [reflexivity | split; discriminate].
Qed.

(** C1, amended: whenever the sentinel is found and [row_count > 0], the
    reported record length is the floor quotient of the table length by
    the row count; no error is raised on a remainder, so the product
    [record_length * row_count] is at most the table length, misses it
    by less than [row_count], and equals it exactly when [row_count]
    divides it. *)
Theorem record_length_is_floor_quotient (data : bytes) (h : header_info)
    (m : Z) :
  analyze_header data = Returns h ->
  magic_offset h = Some m ->
  0 < row_count h ->
  exists rl : Z,
    table_length h = Some (m - 4) /\
    record_length h = Some rl /\
    rl = (m - 4) / row_count h /\
    rl * row_count h <= m - 4 < (rl + 1) * row_count h /\
    (rl * row_count h = m - 4 <-> (m - 4) mod row_count h = 0).
Proof.
  intros H Hm Hrc.
  destruct (analyze_header_found data h m H Hm) as (_ & _ & Ht & Hr & _).
  apply Z.ltb_lt in Hrc as Hrc'. rewrite Hrc' in Hr.
  exists ((m - 4) / row_count h). repeat split; trivial.
  - rewrite Z.mul_comm. apply Z.mul_div_le. lia.
  - rewrite Z.mul_comm. apply Z.mul_succ_div_gt. lia.
  - pose proof (Z.div_mod (m - 4) (row_count h)). lia.
  - pose proof (Z.div_mod (m - 4) (row_count h)). lia.
Qed.

Lemma record_length_is_floor_quotient_witness :
  exists rl : Z,
    table_length misaligned_header = Some (7 - 4) /\
    record_length misaligned_header = Some rl /\
    rl = (7 - 4) / row_count misaligned_header /\
    rl * row_count misaligned_header <= 7 - 4
      < (rl + 1) * row_count misaligned_header /\
    (rl * row_count misaligned_header = 7 - 4 <->
     (7 - 4) mod row_count misaligned_header = 0).
Proof.
  apply (record_length_is_floor_quotient misaligned_file misaligned_header 7).
  - reflexivity.
  - reflexivity.
  - simpl. lia.
Defined.

(** C2, as stated, fails: a 4-byte file without the sentinel makes
    [analyze_header] return a header, every geometry entry being [None];
    nothing is raised. *)
Lemma no_magic_returns_header :
  find no_magic_file DAT_MAGIC_NUMBER 0 = -1 /\
  analyze_header no_magic_file =
  Returns {| file_size := 4;
             row_count := 0;
             magic_offset := None;
             table_offset := 4;
             table_length := None;
             record_length := None;
             data_section_offset := None;
             data_section_size := None |}.
Proof.
  split; reflexivity.
Qed.

(** C2, amended: for every buffer of at least 4 bytes that does not
    contain the sentinel, [analyze_header] raises nothing and returns a
    header whose [magic_offset], [table_length], [record_length],
    [data_section_offset] and [data_section_size] are all [None], the
    file size and row count being reported as usual. *)
Theorem no_magic_header_is_all_none (data : bytes) :
  4 <= len data ->
  (forall k, 0 <= k -> slice data k (k + 8) <> DAT_MAGIC_NUMBER) ->
  analyze_header data =
  Returns {| file_size := len data;
             row_count := le_uint (slice data 0 4);
             magic_offset := None;
             table_offset := 4;
             table_length := None;
             record_length := None;
             data_section_offset := None;
             data_section_size := None |}.
Proof.
  intros Hlen Habs. apply analyze_header_absent; trivial.
  destruct (find_magic_spec data) as [[E _] | (H0 & _ & Hat & _)]; trivial.
  exfalso. exact (Habs _ H0 Hat).
Qed.

Lemma no_magic_header_is_all_none_witness :
  analyze_header no_magic_file =
  Returns {| file_size := len no_magic_file;
             row_count := le_uint (slice no_magic_file 0 4);
             magic_offset := None;
             table_offset := 4;
             table_length := None;
             record_length := None;
             data_section_offset := None;
             data_section_size := None |}.
Proof.
  apply (no_magic_header_is_all_none no_magic_file).
  - vm_compute. discriminate.
  - intros k Hk Habs. apply magic_fits in Habs; trivial.
    change (len no_magic_file) with 4 in Habs. lia.
Defined.

(** C4, as stated, fails: the search starts at offset 0, so a buffer
    whose bytes 0-7 are the sentinel gets [magic_offset = 0], which is
    below 4. *)
Lemma magic_found_before_offset_4 :
  exists h : header_info,
    analyze_header magic_only_file = Returns h /\
    magic_offset h = Some 0 /\ ~ 4 <= 0.
Proof.
  eexists. split; [reflexivity|]. split; [reflexivity | lia].
Qed.

(** C4, amended: the reported [magic_offset] is the position of the
    first occurrence of the 8-byte sentinel anywhere in the buffer, the
    search starting at offset 0; hence [magic_offset >= 0], the sentinel
    lies within the buffer, and [magic_offset] is 0 when bytes 0-7 match
    the sentinel. *)
Theorem magic_offset_is_first_occurrence (data : bytes) (h : header_info)
    (m : Z) :
  analyze_header data = Returns h ->
  magic_offset h = Some m ->
  0 <= m /\ m + 8 <= len data /\
  slice data m (m + 8) = DAT_MAGIC_NUMBER /\
  (forall k, 0 <= k < m -> slice data k (k + 8) <> DAT_MAGIC_NUMBER) /\
  (slice data 0 8 = DAT_MAGIC_NUMBER -> m = 0).
Proof.
  intros H Hm.
  destruct (analyze_header_found data h m H Hm) as (Hf & Hne & _).
  destruct (find_magic_spec data) as [[E _] | (H0 & Hfit & Hat & Hmin)];
    [congruence|].
  rewrite <- Hf in *. repeat split; trivial.
  intros H8. destruct (Z.eq_dec m 0) as [|Hpos]; trivial.
  exfalso. apply (Hmin 0); [lia | exact H8].
Qed.

Lemma magic_offset_is_first_occurrence_witness :
  0 <= 7 /\ 7 + 8 <= len misaligned_file /\
  slice misaligned_file 7 (7 + 8) = DAT_MAGIC_NUMBER /\
  (forall k, 0 <= k < 7 ->
     slice misaligned_file k (k + 8) <> DAT_MAGIC_NUMBER) /\
  (slice misaligned_file 0 8 = DAT_MAGIC_NUMBER -> 7 = 0).
Proof.
  apply (magic_offset_is_first_occurrence misaligned_file misaligned_header 7).
  - reflexivity.
  - reflexivity.
Defined.

(** The geometry entries of a header whose [magic_offset] is not 0. *)
Lemma header_geometry (data : bytes) (h : header_info) (m : Z) :
  analyze_header data = Returns h ->
  magic_offset h = Some m ->
  m <> 0 ->
  table_length h = Some (m - 4) /\
  data_section_offset h = Some (m + 8) /\
  data_section_size h = Some (len data - m - 8) /\
  (row_count h = 0 -> record_length h = Some 0).
Proof.
  intros H Hm Hne.
  destruct (analyze_header_found data h m H Hm)
    as (_ & _ & Ht & Hr & Hs & Ho).
  apply Z.eqb_neq in Hne. rewrite Hne in Ho.
  repeat split; trivial.
  intros Hrc. rewrite Hrc in Hr. exact Hr.
Qed.

(** C5 at the input where the code departs from it: the file is the
    sentinel alone, which is located at offset 0; the table length and
    the data section size are computed from that offset, but the data
    section offset is reported as [None] instead of [0 + 8], because
    the test [if magic_offset] takes offset 0 for a missing value. *)
Theorem data_section_offset_lost_at_offset_0 :
  analyze_header magic_only_file =
  Returns {| file_size := 8;
             row_count := 3149642683;
             magic_offset := Some 0;
             table_offset := 4;
             table_length := Some (0 - 4);
             record_length := Some (-1);
             data_section_offset := None;
             data_section_size := Some (8 - 0 - 8) |}.
Proof.
  reflexivity.
Qed.

(** ** Hex dump *)

Lemma append_assoc (a b c : string) :
  ((a ++ b) ++ c = a ++ (b ++ c))%string.
Proof.
  induction a as [|x a IH]; simpl; [reflexivity | now rewrite IH].
Qed.

Lemma append_nil_r (a : string) : (a ++ "" = a)%string.
Proof.
  induction a as [|x a IH]; simpl; [reflexivity | now rewrite IH].
Qed.

Lemma for_each_app {A S : Type} (l1 l2 : list A)
    (body : A -> S -> outcome S) (s : S) :
  for_each (l1 ++ l2) body s =
  (s' <- for_each l1 body s ;; for_each l2 body s').
Proof.
  revert s. induction l1 as [|x l1 IH]; intros s; simpl; [reflexivity|].
  destruct (body x s); simpl; auto.
Qed.

Lemma for_each_cons {A S : Type} (x : A) (l : list A)
    (body : A -> S -> outcome S) (s : S) :
  for_each (x :: l) body s = (s' <- body x s ;; for_each l body s').
Proof. reflexivity. Qed.

(** A loop whose every iteration appends one item to the accumulator. *)
Lemma for_each_collect {A B : Type} (l : list A)
    (body : A -> list B -> outcome (list B)) (g : A -> B) (acc : list B) :
  (forall x s, In x l -> body x s = Returns (s ++ [g x])) ->
  for_each l body acc = Returns (acc ++ map g l).
Proof.
  revert acc. induction l as [|x l IH]; intros acc Hb; simpl.
  - now rewrite app_nil_r.
  - rewrite Hb by now left. simpl. rewrite IH.
    + now rewrite <- app_assoc.
    + intros y s Hy. apply Hb. now right.
Qed.

Lemma py_range_up (start stop step : Z) :
  0 < step ->
  exists l, py_range start stop step = Returns l /\
            forall i, In i l -> start <= i < stop.
Proof.
  intros Hs. unfold py_range.
  destruct (Z.eqb_spec step 0) as [E0 | E0]; [lia|].
  destruct (Z.ltb_spec 0 step) as [Elt | Elt]; [|lia].
  eexists. split; [reflexivity|].
  intros i Hi. apply in_map_iff in Hi as (k & <- & Hk).
  apply in_seq in Hk.
  set (n := (stop - start + step - 1) / step) in *.
  assert (Hn : step * n <= stop - start + step - 1)
    by (apply Z.mul_div_le; lia).
  split; [nia|].
  assert (Z.of_nat k + 1 <= n) by lia. nia.
Qed.

Lemma py_range_count (n : Z) :
  py_range 0 n 1 = Returns (map Z.of_nat (seq 0 (Z.to_nat n))).
Proof.
  unfold py_range. simpl.
  replace (n - 0 + 1 - 1) with n by lia. rewrite Z.div_1_r.
  f_equal. apply map_ext. intros k. lia.
Qed.

Lemma getitem_nth (data : bytes) (i : Z) (b : byte) :
  0 <= i -> nth_error data (Z.to_nat i) = Some b ->
  getitem data i = Returns b.
Proof.
  intros Hi Hn. unfold getitem.
  assert (Hlt : (Z.to_nat i < List.length data)%nat)
    by (apply nth_error_Some; congruence).
  destruct (Z.ltb_spec i 0); [lia|].
  destruct (Z.ltb_spec i 0); [lia|].
  destruct (Z.leb_spec (len data) i); [unfold len in *; lia|].
  simpl. now rewrite Hn.
Qed.

Section HexdumpRow.

Variable data : bytes.
Variables end_ i : Z.

(** Positions before [end_]: one byte is read and rendered at each. *)
Lemma cells_of_bytes (chunk : bytes) :
  forall (s : nat) (hex_part ascii_part : string),
    0 <= i ->
    firstn (List.length chunk) (skipn (Z.to_nat i + s) data) = chunk ->
    i + Z.of_nat s + len chunk <= end_ ->
    for_each (map Z.of_nat (seq s (List.length chunk))) (hexdump_cell data end_ i)
             (hex_part, ascii_part) =
    Returns ((hex_part ++ hex_cells chunk)%string,
             (ascii_part ++ string_of_list_ascii (map shown_char chunk))%string).
Proof.
  induction chunk as [|b chunk IH]; intros s hp ap Hi Hchunk Hend.
  - simpl. now rewrite !append_nil_r.
  - destruct (skipn (Z.to_nat i + s) data) as [|b' rest] eqn:Hskip;
      [discriminate|].
    simpl in Hchunk. injection Hchunk as -> Hrest.
    assert (Hlen : len (b :: chunk) = 1 + len chunk)
      by (unfold len; simpl List.length; lia).
    pose proof (len_nonneg chunk) as Hnn.
    assert (Hget : getitem data (i + Z.of_nat s) = Returns b).
    { apply getitem_nth; [lia|].
      replace (Z.to_nat (i + Z.of_nat s)) with (Z.to_nat i + s)%nat by lia.
      rewrite <- hd_error_skipn, Hskip. reflexivity. }
    cbn [seq map List.length]. rewrite for_each_cons. unfold hexdump_cell at 1.
    destruct (Z.ltb_spec (i + Z.of_nat s) end_) as [_ | Hge]; [|lia].
    rewrite Hget. cbn [bind].
    rewrite (IH (S s)); trivial.
    + f_equal. f_equal.
      * now rewrite !append_assoc.
      * rewrite append_assoc. f_equal. unfold shown_char, chr.
        now destruct ((32 <=? byte_val b) && (byte_val b <? 127)).
    + replace (Z.to_nat i + S s)%nat with (1 + (Z.to_nat i + s))%nat by lia.
      rewrite <- skipn_skipn, Hskip. exact Hrest.
    + lia.
Qed.

(** Positions at or past [end_]: nothing is read, blanks are emitted. *)
Lemma cells_of_blanks (n : nat) :
  forall (s : nat) (hex_part ascii_part : string),
    n = 0%nat \/ end_ <= i + Z.of_nat s ->
    for_each (map Z.of_nat (seq s n)) (hexdump_cell data end_ i)
             (hex_part, ascii_part) =
    Returns ((hex_part ++ blanks n)%string, ascii_part).
Proof.
  induction n as [|n IH]; intros s hp ap Hend.
  - simpl. now rewrite append_nil_r.
  - cbn [seq map]. rewrite for_each_cons. unfold hexdump_cell at 1.
    destruct (Z.ltb_spec (i + Z.of_nat s) end_) as [Hlt | _]; [lia|].
    cbn [bind]. rewrite IH by lia. cbn [blanks]. now rewrite append_assoc.
Qed.

(** A whole row, for a start index inside the dumped range. *)
Lemma row_cells (width : Z) :
  0 <= i < end_ -> end_ <= len data -> 0 < width ->
  let chunk := slice data i (Z.min (i + width) end_) in
  for_each (map Z.of_nat (seq 0 (Z.to_nat width))) (hexdump_cell data end_ i)
           (""%string, ""%string) =
  Returns ((hex_cells chunk ++ blanks (Z.to_nat (width - len chunk)))%string,
           string_of_list_ascii (map shown_char chunk)).
Proof.
  intros Hi Hend Hw chunk.
  set (c := Z.min (i + width) end_ - i).
  assert (Hc : 0 < c <= width) by lia.
  assert (Hchunk : chunk = firstn (Z.to_nat c) (skipn (Z.to_nat i) data)).
  { subst chunk c.
    replace (Z.min (i + width) end_)
      with (i + (Z.min (i + width) end_ - i)) at 1 by lia.
    apply slice_firstn_skipn; lia. }
  assert (Hlen : len chunk = c).
  { subst chunk. rewrite slice_len; lia. }
  assert (Hlen' : List.length chunk = Z.to_nat c)
    by (unfold len in Hlen; lia).
  replace (Z.to_nat width)
    with (List.length chunk + Z.to_nat (width - len chunk))%nat by lia.
  rewrite seq_app, map_app, for_each_app.
  rewrite (cells_of_bytes chunk 0); [| lia | | lia].
  - cbn [bind]. rewrite cells_of_blanks by lia. reflexivity.
  - rewrite Nat.add_0_r, Hlen'. symmetry. exact Hchunk.
Qed.

End HexdumpRow.

(** C9: for every buffer, [offset >= 0], [length >= 0] and [width > 0],
    [hexdump] returns text (in particular no index outside the data is
    read, which would raise [IndexError]); the rows start at indices
    within [offset, end) where [end = min(offset + length, len(data))],
    each row renders exactly the bytes [data[i : min(i + width, end)]],
    and its ASCII column shows a byte [b] with [32 <= b < 127] as its
    ASCII character and any other byte as a dot. *)
Theorem hexdump_renders_clamped_range (data : bytes)
    (offset length width : Z) :
  0 <= offset -> 0 <= length -> 0 < width ->
  let end_ := Z.min (offset + length) (len data) in
  exists rows : list Z,
    py_range offset end_ width = Returns rows /\
    (forall i, In i rows -> offset <= i < end_ /\ end_ <= len data) /\
    hexdump data offset length width =
    Returns (String.concat newline (map (dump_row data end_ width) rows)).
Proof.
  intros Ho Hl Hw end_.
  destruct (py_range_up offset end_ width Hw) as (rows & Hrows & Hin).
  exists rows. split; [exact Hrows|]. split.
  - intros i Hi. split; [now apply Hin | subst end_; lia].
  - unfold hexdump. fold end_. rewrite Hrows. cbn [bind].
    rewrite (for_each_collect rows _ (dump_row data end_ width)).
    + reflexivity.
    + intros i lines Hi. apply Hin in Hi.
      rewrite py_range_count. cbn [bind].
      assert (Hrow := row_cells data end_ i width ltac:(lia)
                        ltac:(subst end_; lia) Hw).
      cbv zeta in Hrow. rewrite Hrow. cbn [bind].
      unfold dump_row. now rewrite !append_assoc.
Qed.

(** A dump of seven bytes, four per row. *)
Example hexdump_two_rows :
  hexdump [x48; x69; x00; x7f; x7e; x20; x1f] 0 256 4 =
  Returns ("00000000  48 69 00 7f  |Hi..|" ++ newline ++
           "00000004  7e 20 1f     |~ .|")%string.
Proof. reflexivity. Qed.

(** A zero width is refused by [range]. *)
Example hexdump_zero_width :
  hexdump [x48; x69] 0 256 0 = Raises ValueError.
Proof. reflexivity. Qed.

(** ** Column type inference *)

Lemma firstn_add {A : Type} (n1 n2 : nat) (l : list A) :
  firstn (n1 + n2) l = firstn n1 l ++ firstn n2 (skipn n1 l).
Proof.
  revert l. induction n1 as [|n1 IH]; intros l; [reflexivity|].
  destruct l as [|x l]; simpl.
  - now rewrite firstn_nil.
  - now rewrite IH.
Qed.

Lemma slice_eq {A : Type} (data : list A) (a b : Z) :
  0 <= a <= b ->
  slice data a b = firstn (Z.to_nat (b - a)) (skipn (Z.to_nat a) data).
Proof.
  intros Hab. rewrite <- slice_firstn_skipn by lia. f_equal. lia.
Qed.

Lemma slice_split {A : Type} (data : list A) (a b c : Z) :
  0 <= a <= b -> b <= c ->
  slice data a c = slice data a b ++ slice data b c.
Proof.
  intros Hab Hbc. rewrite !slice_eq by lia.
  replace (Z.to_nat (c - a))
    with (Z.to_nat (b - a) + Z.to_nat (c - b))%nat by lia.
  rewrite firstn_add, skipn_skipn.
  do 3 f_equal. lia.
Qed.

Lemma le_uint_app (l1 l2 : bytes) :
  le_uint (l1 ++ l2) = le_uint l1 + 256 ^ len l1 * le_uint l2.
Proof.
  induction l1 as [|x l1 IH].
  - unfold len. simpl (Z.of_nat _). rewrite Z.pow_0_r.
    simpl app. change (le_uint []) with 0. lia.
  - replace (len (x :: l1)) with (Z.succ (len l1))
      by (unfold len; simpl List.length; lia).
    rewrite Z.pow_succ_r by apply len_nonneg.
    change (le_uint ((x :: l1) ++ l2))
      with (byte_val x + 256 * le_uint (l1 ++ l2)).
    change (le_uint (x :: l1)) with (byte_val x + 256 * le_uint l1).
    rewrite IH. ring.
Qed.

(** The two 32-bit halves of an 8-byte little-endian value. *)
Lemma le_uint_halves (row : bytes) (o : Z) :
  0 <= o -> o + 8 <= len row ->
  let v := le_uint (slice row o (o + 8)) in
  le_uint (slice row o (o + 4)) = v mod 2 ^ 32 /\
  le_uint (slice row (o + 4) (o + 8)) = v / 2 ^ 32.
Proof.
  intros Ho Hlen v. subst v.
  rewrite (slice_split row o (o + 4) (o + 8)) by lia.
  rewrite le_uint_app, slice_len by lia.
  replace (o + 4 - o) with 4 by lia.
  pose proof (le_uint_range (slice row o (o + 4))) as Hlo.
  rewrite slice_len in Hlo by lia.
  replace (o + 4 - o) with 4 in Hlo by lia.
  change (256 ^ 4) with (2 ^ 32) in *.
  set (lo := le_uint (slice row o (o + 4))) in *.
  set (hi := le_uint (slice row (o + 4) (o + 8))).
  split.
  - apply (Z.mod_unique_pos _ _ hi); lia.
  - apply (Z.div_unique_pos _ _ hi lo); lia.
Qed.

Lemma unpack_Q_slice (row : bytes) (o : Z) :
  0 <= o -> o + 8 <= len row ->
  unpack_Q (slice row o (o + 8)) = Returns (le_uint (slice row o (o + 8))).
Proof.
  intros Ho Hlen. unfold unpack_Q. rewrite slice_len by lia.
  replace (o + 8 - o) with 8 by lia. reflexivity.
Qed.

Lemma unpack_q_slice (row : bytes) (o : Z) :
  0 <= o -> o + 8 <= len row ->
  exists i, unpack_q (slice row o (o + 8)) = Returns i.
Proof.
  intros Ho Hlen. unfold unpack_q. rewrite slice_len by lia.
  replace (o + 8 - o) with 8 by lia. simpl. eauto.
Qed.

Lemma unpack_I_slice (row : bytes) (o : Z) :
  0 <= o -> o + 4 <= len row ->
  unpack_I (slice row o (o + 4)) = Returns (le_uint (slice row o (o + 4))).
Proof.
  intros Ho Hlen. unfold unpack_I. rewrite slice_len by lia.
  replace (o + 4 - o) with 4 by lia. reflexivity.
Qed.

Lemma in_range_some (v bound : Z) :
  in_range v (Some bound) = Returns ((0 <? v) && (v <? bound)).
Proof.
  unfold in_range. now destruct (0 <? v).
Qed.

Lemma unpack_Q_at (row : bytes) (a b : Z) :
  0 <= a -> b = a + 8 -> b <= len row ->
  unpack_Q (slice row a b) = Returns (le_uint (slice row a b)).
Proof.
  intros Ha -> Hlen. now apply unpack_Q_slice.
Qed.

(** Whatever an iteration prints, and in every branch that returns, the
    next loop test sees [offset + 8] and [col_num + 1]; this includes
    the branch that reports a list pointer. *)
Lemma loop_body_advances_by_8 (char_isprintable : Z -> bool)
    (first_row data_section : bytes) (rl : Z) (dss : option Z)
    (offset col_num : Z) (out : list line) (offset' col_num' : Z) :
  loop_body char_isprintable first_row data_section rl dss offset col_num =
    Returns (out, offset', col_num') ->
  offset' = offset + 8 /\ col_num' = col_num + 1.
Proof.
  unfold loop_body. cbv zeta. intros H.
  repeat match type of H with
         | context [bind ?c _] =>
             destruct c; cbn [bind] in H; try discriminate
         | context [if ?b then _ else _] => destruct b
         end;
    first [discriminate | injection H as _ <- <-; split; reflexivity].
Qed.

Section Strides.

Variable char_isprintable : Z -> bool.
Variables first_row data_section : bytes.
Variables rl dss : Z.

Hypothesis first_row_len : len first_row = rl.

(** One iteration: it never raises, prints the lines of its stride, and
    moves on by 8 bytes and one column in every branch. *)
Lemma loop_body_stride (k : nat) :
  loop_body char_isprintable first_row data_section rl (Some dss)
            (8 * Z.of_nat k) (Z.of_nat k) =
  Returns (stride_lines char_isprintable first_row data_section rl dss k,
           8 * Z.of_nat k + 8, Z.of_nat k + 1).
Proof.
  unfold loop_body, stride_lines. cbv zeta.
  set (o := 8 * Z.of_nat k). assert (Ho : 0 <= o) by lia.
  destruct (Z.leb_spec (o + 8) rl) as [Hfull | Hpart]; [|reflexivity].
  rewrite unpack_Q_slice by lia.
  destruct (unpack_q_slice first_row o Ho ltac:(lia)) as (i64 & ->).
  cbn [bind]. rewrite in_range_some. cbn [bind].
  unfold classification. cbv zeta.
  set (v := le_uint (slice first_row o (o + 8))).
  set (next := le_uint (slice first_row (o + 8) (o + 16))).
  destruct (le_uint_halves first_row o Ho ltac:(lia)) as (Hlo & Hhi).
  fold v in Hlo, Hhi.
  assert (Hscalar :
    (val_u32_1 <- unpack_I (slice first_row o (o + 4)) ;;
     val_u32_2 <- unpack_I (slice first_row (o + 4) (o + 8)) ;;
     Returns ([ColAt (Z.of_nat k) o; U64 v] ++
              [U32Halves val_u32_1 val_u32_2; IntegerValue],
              o + 8, Z.of_nat k + 1)) =
    Returns (ColAt (Z.of_nat k) o :: U64 v ::
             [U32Halves (v mod 2 ^ 32) (v / 2 ^ 32); IntegerValue],
             o + 8, Z.of_nat k + 1)).
  { rewrite unpack_I_slice by lia. cbn [bind].
    replace (o + 8) with (o + 4 + 4) at 1 by lia.
    rewrite unpack_I_slice by lia.
    replace (o + 4 + 4) with (o + 8) by lia. cbn [bind].
    now rewrite Hlo, Hhi. }
  destruct ((0 <? v) && (v <? dss)) eqn:Hptr; cbn [andb].
  - destruct (Z.leb_spec (o + 16) rl) as [Hpair | Hlast]; cbn [andb].
    + rewrite (unpack_Q_at first_row (o + 8) (o + 16)) by lia.
      cbn [bind]. fold next. rewrite in_range_some. cbn [bind].
      destruct ((0 <? next) && (next <? dss)); [|reflexivity].
      cbn [as_int bind].
      now destruct (next + v * 8 <=? dss).
    + reflexivity.
  - destruct (is_null_pattern v); [reflexivity|]. exact Hscalar.
Qed.

(** The loop prints the strides one after the other and stops. *)
Lemma while_loop_strides (fuel : nat) :
  forall k : nat,
    rl - 8 * Z.of_nat k <= 8 * Z.of_nat fuel ->
    while_loop char_isprintable fuel first_row data_section rl (Some dss)
               (8 * Z.of_nat k) (Z.of_nat k) =
    Returns (List.concat (map
      (stride_lines char_isprintable first_row data_section rl dss)
      (seq k (Z.to_nat ((rl - 8 * Z.of_nat k + 7) / 8))))).
Proof.
  induction fuel as [|fuel IH]; intros k Hfuel.
  - cbn [while_loop]. destruct (Z.ltb_spec (8 * Z.of_nat k) rl); [lia|].
    assert (Hn : (rl - 8 * Z.of_nat k + 7) / 8 <= 0).
    { apply Z.lt_succ_r. apply Z.div_lt_upper_bound; lia. }
    replace (Z.to_nat ((rl - 8 * Z.of_nat k + 7) / 8)) with 0%nat by lia.
    reflexivity.
  - cbn [while_loop].
    destruct (Z.ltb_spec (8 * Z.of_nat k) rl) as [Hlt | Hge].
    + rewrite loop_body_stride. cbn [bind].
      replace (8 * Z.of_nat k + 8) with (8 * Z.of_nat (S k)) by lia.
      replace (Z.of_nat k + 1) with (Z.of_nat (S k)) by lia.
      rewrite IH by lia. cbn [bind].
      assert (Hn : (rl - 8 * Z.of_nat k + 7) / 8 =
                   (rl - 8 * Z.of_nat (S k) + 7) / 8 + 1).
      { replace (rl - 8 * Z.of_nat k + 7)
          with (rl - 8 * Z.of_nat (S k) + 7 + 1 * 8) by lia.
        apply Z.div_add. lia. }
      assert (Hpos : 0 <= (rl - 8 * Z.of_nat (S k) + 7) / 8)
        by (apply Z.div_pos; lia).
      rewrite Hn, Z2Nat.inj_add by lia.
      rewrite Nat.add_comm. reflexivity.
    + assert (Hn : (rl - 8 * Z.of_nat k + 7) / 8 <= 0).
      { apply Z.lt_succ_r. apply Z.div_lt_upper_bound; lia. }
      replace (Z.to_nat ((rl - 8 * Z.of_nat k + 7) / 8)) with 0%nat by lia.
      reflexivity.
Qed.

End Strides.

Section Reports.

Variable char_isprintable : Z -> bool.

(** The geometry of a header whose record length is positive. *)
Lemma positive_record_geometry (data : bytes) (h : header_info) (m rl : Z) :
  analyze_header data = Returns h ->
  magic_offset h = Some m ->
  record_length h = Some rl ->
  0 < rl ->
  4 < m /\ m + 8 <= len data /\ rl <= m - 4 /\
  data_section_offset h = Some (m + 8) /\
  data_section_size h = Some (len data - m - 8).
Proof.
  intros H Hm Hrl Hpos.
  destruct (analyze_header_found data h m H Hm)
    as (Hf & Hne & _ & Hr & Hs & Ho).
  destruct (find_magic_spec data) as [[E _] | (H0 & Hfit & _)];
    [congruence|].
  rewrite <- Hf in *.
  rewrite Hrl in Hr. injection Hr as Hr.
  destruct (Z.ltb_spec 0 (row_count h)) as [Hrc | Hrc]; [|lia].
  assert (Hm4 : 0 < m - 4).
  { destruct (Z.le_gt_cases (m - 4) 0) as [Hle | Hgt]; [|lia].
    assert ((m - 4) / row_count h <= 0)
      by (apply Z.div_le_upper_bound; nia).
    lia. }
  assert (Hle : rl * row_count h <= m - 4).
  { rewrite Hr, Z.mul_comm. apply Z.mul_div_le. lia. }
  destruct (Z.eqb_spec m 0); [lia|].
  repeat split; trivial; try lia; nia.
Qed.

(** The whole output of the inference for a header with a positive
    record length: the banner, then the lines of every stride of the
    first record, in order; nothing is raised and the loop budget of
    the model is enough. *)
Lemma infer_column_types_report (data : bytes) (h : header_info) (m rl : Z) :
  analyze_header data = Returns h ->
  magic_offset h = Some m ->
  record_length h = Some rl ->
  0 < rl ->
  infer_column_types char_isprintable data h =
  Returns (Banner rl ::
    List.concat (map
      (stride_lines char_isprintable (slice data 4 (4 + rl))
                    (slice_from data (m + 8)) rl (len data - m - 8))
      (seq 0 (Z.to_nat ((rl + 7) / 8))))).
Proof.
  intros H Hm Hrl Hpos.
  destruct (positive_record_geometry data h m rl H Hm Hrl Hpos)
    as (Hm4 & Hfit & Hle & Ho & Hs).
  unfold infer_column_types. rewrite Hm, Hrl, Ho, Hs.
  destruct (Z.eqb_spec m 0); [lia|].
  destruct (Z.eqb_spec rl 0); [lia|]. cbn [orb].
  replace (slice (slice data 4 m) 0 rl) with (slice data 4 (4 + rl)).
  2:{ change rl with (0 + rl) at 2. rewrite slice_slice by lia.
      f_equal; lia. }
  pose proof (while_loop_strides char_isprintable (slice data 4 (4 + rl))
                (slice_from data (m + 8)) rl (len data - m - 8)
                ltac:(rewrite slice_len; lia) (Z.to_nat rl) 0%nat) as Hw.
  change (8 * Z.of_nat 0) with 0 in Hw. change (Z.of_nat 0) with 0 in Hw.
  rewrite Z.sub_0_r in Hw. rewrite Hw by lia. reflexivity.
Qed.

Lemma nth_error_strides {B : Type} (f : nat -> B) (n k : nat) :
  (k < n)%nat -> nth_error (map f (seq 0 n)) k = Some (f k).
Proof.
  intros Hk. rewrite nth_error_map, nth_error_seq.
  destruct (Nat.ltb_spec k n); [reflexivity | lia].
Qed.

Lemma full_stride_count (rl : Z) (k : nat) :
  8 * Z.of_nat k + 8 <= rl -> (k < Z.to_nat ((rl + 7) / 8))%nat.
Proof.
  intros Hk.
  assert (Z.of_nat k + 1 <= (rl + 7) / 8)
    by (apply Z.div_le_lower_bound; lia).
  lia.
Qed.

End Reports.

Section Classification.

Variable char_isprintable : Z -> bool.

Lemma describe_pointer_line (data_section : bytes) (v : Z) :
  is_pointer_line (describe_pointer char_isprintable data_section v) = true /\
  describe_pointer char_isprintable data_section v <> NullValue.
Proof.
  unfold describe_pointer. cbv zeta.
  repeat match goal with
         | |- context [if ?c then _ else _] => destruct c
         | |- context [match ?c with Some _ => _ | None => _ end] =>
             destruct c
         end; split; (reflexivity || discriminate).
Qed.

Variables first_row data_section : bytes.
Variables rl dss : Z.

(** A value inside the payload range is always reported as a pointer. *)
Lemma classification_in_range (offset : Z) :
  0 < le_uint (slice first_row offset (offset + 8)) < dss ->
  reports_pointer
    (classification char_isprintable first_row data_section rl dss offset)
    = true /\
  ~ In NullValue
      (classification char_isprintable first_row data_section rl dss offset).
Proof.
  intros Hv. unfold classification. cbv zeta.
  destruct (Z.ltb_spec 0 (le_uint (slice first_row offset (offset + 8))));
    [|lia].
  destruct (Z.ltb_spec (le_uint (slice first_row offset (offset + 8))) dss);
    [|lia].
  cbn [andb].
  destruct (describe_pointer_line data_section
              (le_uint (slice first_row offset (offset + 8)))) as (Hp & Hn).
  destruct ((offset + 16 <=? rl) && _).
  - split; [reflexivity|].
    destruct (_ <=? dss); simpl; intuition discriminate.
  - split; [exact Hp|]. simpl. intuition congruence.
Qed.

(** A value outside the payload range is a null marker or a scalar. *)
Lemma classification_out_of_range (offset : Z) :
  let v := le_uint (slice first_row offset (offset + 8)) in
  ~ 0 < v < dss ->
  reports_pointer
    (classification char_isprintable first_row data_section rl dss offset)
    = false /\
  classification char_isprintable first_row data_section rl dss offset =
    if is_null_pattern v then [NullValue]
    else [U32Halves (v mod 2 ^ 32) (v / 2 ^ 32); IntegerValue].
Proof.
  intros v Hv. unfold classification. cbv zeta. fold v.
  assert (E : (0 <? v) && (v <? dss) = false).
  { destruct (Z.ltb_spec 0 v); destruct (Z.ltb_spec v dss);
      trivial; lia. }
  rewrite E. now destruct (is_null_pattern v).
Qed.

End Classification.

Section Claims.

Variable char_isprintable : Z -> bool.

(** What is printed for a full stride of the first record. *)
Lemma stride_report (data : bytes) (h : header_info) (m rl : Z) (k : nat) :
  analyze_header data = Returns h ->
  magic_offset h = Some m ->
  record_length h = Some rl ->
  8 * Z.of_nat k + 8 <= rl ->
  let first_row := slice data 4 (4 + rl) in
  let v := le_uint (slice data (4 + 8 * Z.of_nat k) (4 + 8 * Z.of_nat k + 8)) in
  le_uint (slice first_row (8 * Z.of_nat k) (8 * Z.of_nat k + 8)) = v /\
  exists cols : list (list line),
    infer_column_types char_isprintable data h =
      Returns (Banner rl :: List.concat cols) /\
    nth_error cols k =
      Some (ColAt (Z.of_nat k) (8 * Z.of_nat k) :: U64 v ::
            classification char_isprintable first_row
              (slice_from data (m + 8)) rl (len data - m - 8)
              (8 * Z.of_nat k)).
Proof.
  intros H Hm Hrl Hk first_row v.
  assert (Hv : le_uint (slice first_row (8 * Z.of_nat k)
                          (8 * Z.of_nat k + 8)) = v).
  { subst first_row v. rewrite slice_slice by lia. reflexivity. }
  split; [exact Hv|].
  eexists. split.
  - apply (infer_column_types_report char_isprintable data h m rl);
      trivial; lia.
  - rewrite nth_error_strides by now apply full_stride_count.
    unfold stride_lines. cbv zeta.
    destruct (Z.leb_spec (8 * Z.of_nat k + 8) rl); [|lia].
    fold first_row. now rewrite Hv.
Qed.

(** C3 at an input where the code departs from it: the first record
    holds the pair (count = 8, offset = 20), which is reported as a list
    pointer at offset 0; the scan then moves on by 8 bytes only, and the
    offset half of the pair is examined again as column 1 at offset 8,
    where it is reported as a string pointer. *)
Theorem list_pointer_offset_half_is_reexamined :
  analyze_header list_pointer_file = Returns list_pointer_header /\
  infer_column_types char_isprintable list_pointer_file list_pointer_header =
  Returns [Banner 16;
           ColAt 0 0; U64 8; ListPointer 8 20;
           ColAt 1 8; U64 20; StringPointer []].
Proof.
  split; reflexivity.
Qed.

(** C7: when the first record starts with the bytes
    08 00 00 00 00 00 00 00, followed by 8 bytes that encode a value
    strictly between 0 and the payload length, the record being at least
    16 bytes long and the payload longer than 8 bytes, the pair is
    reported as a list pointer with count 8 and that value as offset. *)
Theorem count_8_pair_is_list_pointer (data : bytes) (h : header_info)
    (m rl n : Z) :
  analyze_header data = Returns h ->
  magic_offset h = Some m ->
  record_length h = Some rl ->
  16 <= rl ->
  slice data 4 12 = [x08; x00; x00; x00; x00; x00; x00; x00] ->
  le_uint (slice data 12 20) = n ->
  0 < n < len data - m - 8 ->
  8 < len data - m - 8 ->
  exists rest : list line,
    infer_column_types char_isprintable data h =
    Returns (Banner rl :: ColAt 0 0 :: U64 8 :: ListPointer 8 n :: rest).
Proof.
  intros H Hm Hrl H16 Hfirst Hnext Hn Hpayload.
  rewrite (infer_column_types_report char_isprintable data h m rl)
    by (trivial; lia).
  pose proof (full_stride_count rl 0 ltac:(simpl; lia)) as Hcount.
  destruct (Z.to_nat ((rl + 7) / 8)) as [|c] eqn:Ec; [lia|].
  cbn [seq map List.concat].
  set (first_row := slice data 4 (4 + rl)).
  assert (Hfr : slice first_row 0 (0 + 8) =
                [x08; x00; x00; x00; x00; x00; x00; x00]).
  { subst first_row. rewrite slice_slice by lia. exact Hfirst. }
  assert (Hnx : le_uint (slice first_row (0 + 8) (0 + 16)) = n).
  { subst first_row. change (0 + 16) with (0 + 8 + 8).
    rewrite slice_slice by lia. exact Hnext. }
  unfold stride_lines, classification. cbv zeta.
  change (8 * Z.of_nat 0) with 0. change (Z.of_nat 0) with 0.
  rewrite Hfr, Hnx.
  change (le_uint [x08; x00; x00; x00; x00; x00; x00; x00]) with 8.
  change (0 <? 8) with true.
  destruct (Z.leb_spec (0 + 8) rl); [|lia].
  destruct (Z.ltb_spec 8 (len data - m - 8)); [|lia].
  destruct (Z.leb_spec (0 + 16) rl); [|lia].
  destruct (Z.ltb_spec 0 n); [|lia].
  destruct (Z.ltb_spec n (len data - m - 8)); [|lia].
  cbn [andb app]. eexists. reflexivity.
Qed.

(** C8: when the sentinel is located and the record length is positive,
    the inference returns its report without raising; the report holds
    one group of lines per stride, and at every full stride whose value
    is neither within the payload range nor one of the null patterns
    the group reports a scalar, with the two 32-bit halves of the
    value. *)
Theorem inference_completes_with_scalar_fallback (data : bytes)
    (h : header_info) (m rl : Z) :
  analyze_header data = Returns h ->
  magic_offset h = Some m ->
  record_length h = Some rl ->
  0 < rl ->
  exists cols : list (list line),
    infer_column_types char_isprintable data h =
      Returns (Banner rl :: List.concat cols) /\
    List.length cols = Z.to_nat ((rl + 7) / 8) /\
    forall k : nat,
      8 * Z.of_nat k + 8 <= rl ->
      let v :=
        le_uint (slice data (4 + 8 * Z.of_nat k) (4 + 8 * Z.of_nat k + 8)) in
      exists cls : list line,
        nth_error cols k =
          Some (ColAt (Z.of_nat k) (8 * Z.of_nat k) :: U64 v :: cls) /\
        (~ 0 < v < len data - m - 8 ->
         is_null_pattern v = false ->
         cls = [U32Halves (v mod 2 ^ 32) (v / 2 ^ 32); IntegerValue]).
Proof.
  intros H Hm Hrl Hpos.
  eexists. split; [|split].
  - apply (infer_column_types_report char_isprintable data h m rl);
      trivial.
  - now rewrite length_map, length_seq.
  - intros k Hk v.
    destruct (stride_report data h m rl k H Hm Hrl Hk) as (Hv & _).
    fold v in Hv.
    rewrite nth_error_strides by now apply full_stride_count.
    unfold stride_lines. cbv zeta.
    destruct (Z.leb_spec (8 * Z.of_nat k + 8) rl); [|lia].
    rewrite Hv. eexists. split; [reflexivity|].
    intros Hout Hnull.
    destruct (classification_out_of_range char_isprintable
                (slice data 4 (4 + rl)) (slice_from data (m + 8)) rl
                (len data - m - 8) (8 * Z.of_nat k)) as (_ & Hc);
      [rewrite Hv; exact Hout|].
    rewrite Hv, Hnull in Hc. exact Hc.
Qed.

End Claims.

(** The reports for the two single-column files. *)
Example scalar_file_report :
  analyze_header scalar_file = Returns scalar_header /\
  infer_column_types ascii_isprintable scalar_file scalar_header =
  Returns [Banner 8; ColAt 0 0; U64 4294967298; U32Halves 2 1; IntegerValue].
Proof. split; reflexivity. Qed.

Example a6_file_report :
  analyze_header a6_file = Returns a6_header /\
  infer_column_types ascii_isprintable a6_file a6_header =
  Returns [Banner 8; ColAt 0 0; U64 166; DataPointer 166].
Proof. split; reflexivity. Qed.

(** Without a table the inference declines. *)
Example no_magic_file_report :
  forall h, analyze_header no_magic_file = Returns h ->
  infer_column_types ascii_isprintable no_magic_file h = Returns [CannotInfer].
Proof. intros h H. injection H as <-. reflexivity. Qed.

Lemma count_8_pair_is_list_pointer_witness :
  exists rest : list line,
    infer_column_types ascii_isprintable list_pointer_file
                       list_pointer_header =
    Returns (Banner 16 :: ColAt 0 0 :: U64 8 :: ListPointer 8 20 :: rest).
Proof.
  apply (count_8_pair_is_list_pointer ascii_isprintable list_pointer_file list_pointer_header
           20 16 20).
  - reflexivity.
  - reflexivity.
  - reflexivity.
  - lia.
  - reflexivity.
  - reflexivity.
  - vm_compute. split; reflexivity.
  - vm_compute. reflexivity.
Defined.

Lemma inference_completes_with_scalar_fallback_witness :
  exists cols : list (list line),
    infer_column_types ascii_isprintable scalar_file scalar_header =
      Returns (Banner 8 :: List.concat cols) /\
    List.length cols = Z.to_nat ((8 + 7) / 8) /\
    forall k : nat,
      8 * Z.of_nat k + 8 <= 8 ->
      let v :=
        le_uint (slice scalar_file (4 + 8 * Z.of_nat k)
                       (4 + 8 * Z.of_nat k + 8)) in
      exists cls : list line,
        nth_error cols k =
          Some (ColAt (Z.of_nat k) (8 * Z.of_nat k) :: U64 v :: cls) /\
        (~ 0 < v < len scalar_file - 12 - 8 ->
         is_null_pattern v = false ->
         cls = [U32Halves (v mod 2 ^ 32) (v / 2 ^ 32); IntegerValue]).
Proof.
  apply (inference_completes_with_scalar_fallback ascii_isprintable
           scalar_file scalar_header 12 8).
  - reflexivity.
  - reflexivity.
  - reflexivity.
  - lia.
Defined.

Lemma hexdump_renders_clamped_range_witness :
  let data := [x48; x69; x00; x7f] in
  let end_ := Z.min (1 + 256) (len data) in
  exists rows : list Z,
    py_range 1 end_ 16 = Returns rows /\
    (forall i, In i rows -> 1 <= i < end_ /\ end_ <= len data) /\
    hexdump data 1 256 16 =
    Returns (String.concat newline (map (dump_row data end_ 16) rows)).
Proof.
  apply (hexdump_renders_clamped_range [x48; x69; x00; x7f] 1 256 16); lia.
Defined.

(** * Further properties *)

(** ** Hex dump: when it raises, what it reads, how dumps compose *)

Lemma length_append (a b : string) :
  String.length (a ++ b) = (String.length a + String.length b)%nat.
Proof.
  induction a as [|x a IH]; simpl; [reflexivity | now rewrite IH].
Qed.

Lemma py_range_pos (start stop step : Z) :
  0 < step ->
  py_range start stop step =
  Returns (map (fun k => start + Z.of_nat k * step)
               (seq 0 (Z.to_nat ((stop - start + step - 1) / step)))).
Proof.
  intros Hs. unfold py_range.
  destruct (Z.eqb_spec step 0) as [E0 | E0]; [lia|].
  destruct (Z.ltb_spec 0 step) as [Elt | Elt]; [reflexivity | lia].
Qed.

(** The rows of a dump, for a start that is not negative and a positive
    width; the length may be anything. *)
Lemma hexdump_as_rows (data : bytes) (offset length width : Z) :
  0 <= offset -> 0 < width ->
  let end_ := Z.min (offset + length) (len data) in
  exists rows : list Z,
    py_range offset end_ width = Returns rows /\
    (forall i, In i rows -> offset <= i < end_) /\
    hexdump data offset length width =
    Returns (String.concat newline (map (dump_row data end_ width) rows)).
Proof.
  intros Ho Hw end_.
  destruct (py_range_up offset end_ width Hw) as (rows & Hrows & Hin).
  exists rows. split; [exact Hrows|]. split; [exact Hin|].
  unfold hexdump. fold end_. rewrite Hrows. cbn [bind].
  rewrite (for_each_collect rows _ (dump_row data end_ width)).
  - reflexivity.
  - intros i lines Hi. apply Hin in Hi.
    rewrite py_range_count. cbn [bind].
    rewrite (row_cells data end_ i width) by (subst end_; lia).
    cbn [bind]. unfold dump_row. now rewrite !append_assoc.
Qed.

(** With a negative width the inner loop has no iteration: every row is
    an offset followed by two empty columns, and no byte is read. *)
Lemma hexdump_negative_width (data : bytes) (offset length width : Z) :
  width < 0 ->
  exists rows : list Z,
    hexdump data offset length width =
    Returns (String.concat newline
               (map (fun i => (format_x 8 i ++ "   ||")%string) rows)).
Proof.
  intros Hw. unfold hexdump, py_range at 1.
  destruct (Z.eqb_spec width 0) as [E0 | E0]; [lia|].
  cbn [bind]. eexists.
  rewrite (for_each_collect _ _ (fun i => (format_x 8 i ++ "   ||")%string)).
  - reflexivity.
  - intros i lines _. unfold py_range.
    change (1 =? 0) with false. change (0 <? 1) with true. cbv iota.
    replace (Z.to_nat ((width - 0 + 1 - 1) / 1)) with 0%nat
      by (rewrite Z.div_1_r; lia).
    cbn [seq map for_each bind]. now rewrite append_assoc.
Qed.

(** X1: for a start offset that is not negative, [hexdump] raises
    exactly when the width is 0, and what it raises then is the
    [ValueError] of [range]; with any other width it returns text,
    whatever the length and however short the data. *)
Theorem hexdump_raises_only_for_zero_width (data : bytes)
    (offset length width : Z) :
  0 <= offset ->
  (width = 0 /\ hexdump data offset length width = Raises ValueError) \/
  (width <> 0 /\
   exists text, hexdump data offset length width = Returns text).
Proof.
  intros Ho.
  destruct (Z.lt_trichotomy width 0) as [Hneg | [Hzero | Hpos]].
  - right. split; [lia|].
    destruct (hexdump_negative_width data offset length width Hneg)
      as (rows & ->). eauto.
  - left. split; [exact Hzero|]. subst width. reflexivity.
  - right. split; [lia|].
    destruct (hexdump_as_rows data offset length width Ho Hpos)
      as (rows & _ & _ & ->). eauto.
Qed.

Lemma hexdump_raises_only_for_zero_width_witness :
  (16 = 0 /\ hexdump magic_only_file 2 4 16 = Raises ValueError) \/
  (16 <> 0 /\ exists text, hexdump magic_only_file 2 4 16 = Returns text).
Proof.
  apply (hexdump_raises_only_for_zero_width magic_only_file 2 4 16). lia.
Defined.

(** A negative start offset can raise: index -1 of an empty buffer. *)
Example hexdump_negative_offset_raises :
  hexdump [] (-1) 1 16 = Raises IndexError.
Proof. reflexivity. Qed.

Lemma Returns_inj {A : Type} (a b : A) : Returns a = Returns b -> a = b.
Proof. intros H. now injection H. Qed.

Lemma concat_cons_length (sep x : string) (l : list string) :
  (String.length x <= String.length (String.concat sep (x :: l)))%nat.
Proof.
  destruct l as [|y l]; simpl; [lia|].
  rewrite length_append. lia.
Qed.

Lemma concat_cons_nonempty (sep x : string) (l : list string) :
  (0 < String.length x)%nat -> String.concat sep (x :: l) <> ""%string.
Proof.
  intros Hx Habs. pose proof (concat_cons_length sep x l) as Hlen.
  rewrite Habs in Hlen. simpl in Hlen. lia.
Qed.

Lemma dump_row_length_pos (data : bytes) (end_ width i : Z) :
  (0 < String.length (dump_row data end_ width i))%nat.
Proof.
  unfold dump_row. cbv zeta. rewrite !length_append. simpl. lia.
Qed.

Lemma row_count_zero (offset end_ width : Z) :
  0 < width ->
  (Z.to_nat ((end_ - offset + width - 1) / width) = 0%nat <->
   end_ <= offset).
Proof.
  intros Hw. split.
  - intros Hn.
    destruct (Z.le_gt_cases end_ offset) as [Hle | Hgt]; trivial.
    assert (1 <= (end_ - offset + width - 1) / width)
      by (apply Z.div_le_lower_bound; lia).
    lia.
  - intros Hle.
    assert ((end_ - offset + width - 1) / width < 1)
      by (apply Z.div_lt_upper_bound; lia).
    lia.
Qed.

(** X2: for a start offset that is not negative and a positive width,
    the dump is the empty text exactly when the window is empty, that
    is when [min(offset + length, len(data)) <= offset]: a length that
    is zero or negative, or a start at or past the end of the data. *)
Theorem hexdump_empty_iff_window_empty (data : bytes)
    (offset length width : Z) :
  0 <= offset -> 0 < width ->
  (hexdump data offset length width = Returns ""%string <->
   Z.min (offset + length) (len data) <= offset).
Proof.
  intros Ho Hw.
  destruct (hexdump_as_rows data offset length width Ho Hw)
    as (rows & Hrows & _ & ->).
  rewrite py_range_pos in Hrows by trivial. injection Hrows as <-.
  rewrite <- (row_count_zero offset _ width Hw).
  destruct (Z.to_nat _) as [|n]; cbn [seq map].
  - split; reflexivity.
  - split; [|discriminate]. intros Htext. exfalso.
    apply Returns_inj in Htext. revert Htext.
    apply concat_cons_nonempty, dump_row_length_pos.
Qed.

Lemma hexdump_empty_iff_window_empty_witness :
  hexdump magic_only_file 8 64 16 = Returns ""%string <->
  Z.min (8 + 64) (len magic_only_file) <= 8.
Proof.
  apply (hexdump_empty_iff_window_empty magic_only_file 8 64 16); lia.
Defined.

Lemma format_x_byte_length (b : byte) :
  String.length (format_x 2 (byte_val b)) = 2%nat.
Proof. destruct b; reflexivity. Qed.

Lemma hex_cells_length (chunk : bytes) :
  String.length (hex_cells chunk) = (3 * List.length chunk)%nat.
Proof.
  induction chunk as [|b chunk IH]; [reflexivity|].
  cbn [hex_cells List.length].
  rewrite !length_append, format_x_byte_length, IH. simpl. lia.
Qed.

Lemma blanks_length (n : nat) : String.length (blanks n) = (3 * n)%nat.
Proof.
  induction n as [|n IH]; [reflexivity|].
  cbn [blanks]. rewrite length_append, IH. simpl. lia.
Qed.

Lemma zeros_length (n : nat) : String.length (zeros n) = n.
Proof.
  induction n as [|n IH]; [reflexivity|]. simpl. now rewrite IH.
Qed.

Lemma string_of_list_ascii_length (l : list ascii) :
  String.length (string_of_list_ascii l) = List.length l.
Proof.
  induction l as [|c l IH]; [reflexivity|]. simpl. now rewrite IH.
Qed.

(** A number below [16 ^ (k + 1)] has at most [k + 1] hex digits. *)
Lemma hex_digits_length (fuel : nat) :
  forall (z : Z) (acc : string) (k : nat),
    0 <= z < 16 ^ Z.of_nat (S k) ->
    (String.length (hex_digits fuel z acc) <= String.length acc + S k)%nat.
Proof.
  induction fuel as [|fuel IH]; intros z acc k Hz; cbn [hex_digits].
  - lia.
  - destruct (Z.eqb_spec (z / 16) 0) as [E | E].
    + simpl. lia.
    + destruct k as [|k].
      * exfalso. apply E. apply Z.div_small.
        change (16 ^ Z.of_nat 1) with 16 in Hz. lia.
      * specialize (IH (z / 16) (String (hex_digit (z mod 16)) acc) k).
        simpl String.length in IH.
        assert (0 <= z / 16 < 16 ^ Z.of_nat (S k)).
        { split; [apply Z.div_pos; lia|].
          apply Z.div_lt_upper_bound; [lia|].
          rewrite <- Z.pow_succ_r by lia.
          replace (Z.succ (Z.of_nat (S k))) with (Z.of_nat (S (S k))) by lia.
          lia. }
        specialize (IH ltac:(assumption)). lia.
Qed.

(** Offsets below 4 GiB are shown in exactly 8 digits. *)
Lemma format_x_8_length (i : Z) :
  0 <= i < 2 ^ 32 -> String.length (format_x 8 i) = 8%nat.
Proof.
  intros Hi. unfold format_x. cbv zeta.
  destruct (Z.ltb_spec i 0); [lia|].
  rewrite Z.abs_eq by lia.
  pose proof (hex_digits_length (S (Z.to_nat (Z.log2 i))) i "" 7) as Hd.
  change (16 ^ Z.of_nat 8) with (2 ^ 32) in Hd. specialize (Hd Hi).
  fold (to_hex i) in Hd.
  rewrite !length_append, zeros_length.
  change (String.length ""%string) with 0%nat in *. lia.
Qed.

(** X3: for a buffer of at most 4 GiB, a start offset that is not
    negative and a positive width, every row of the dump has the same
    layout: the offset in exactly 8 hex digits, two spaces, a hex column
    of exactly [3 * width] characters (padded with blanks in a short
    last row), then the ASCII column between bars, holding one character
    per byte of the row, [min(width, end - i)] of them. *)
Theorem hexdump_row_layout (data : bytes) (offset length width : Z) :
  0 <= offset -> 0 < width -> len data <= 2 ^ 32 ->
  let end_ := Z.min (offset + length) (len data) in
  exists rows : list Z,
    hexdump data offset length width =
      Returns (String.concat newline (map (dump_row data end_ width) rows)) /\
    forall i, In i rows ->
      exists hex_col ascii_col : string,
        dump_row data end_ width i =
          (format_x 8 i ++ "  " ++ hex_col ++ " |" ++ ascii_col ++ "|")%string /\
        String.length (format_x 8 i) = 8%nat /\
        Z.of_nat (String.length hex_col) = 3 * width /\
        Z.of_nat (String.length ascii_col) = Z.min width (end_ - i).
Proof.
  intros Ho Hw Hsize end_.
  destruct (hexdump_as_rows data offset length width Ho Hw)
    as (rows & _ & Hin & Htext).
  fold end_ in Hin, Htext.
  exists rows. split; [exact Htext|].
  intros i Hi. apply Hin in Hi.
  assert (Hend : end_ <= len data) by (subst end_; lia).
  assert (Hchunk : len (slice data i (Z.min (i + width) end_)) =
                   Z.min width (end_ - i)) by (rewrite slice_len; lia).
  eexists. eexists. split; [reflexivity|]. split; [|split].
  - apply format_x_8_length. lia.
  - rewrite length_append, hex_cells_length, blanks_length.
    unfold len in Hchunk |- *. lia.
  - rewrite string_of_list_ascii_length, length_map.
    exact Hchunk.
Qed.

Lemma hexdump_row_layout_witness :
  let end_ := Z.min (0 + 256) (len misaligned_file) in
  exists rows : list Z,
    hexdump misaligned_file 0 256 4 =
      Returns (String.concat newline
                 (map (dump_row misaligned_file end_ 4) rows)) /\
    forall i, In i rows ->
      exists hex_col ascii_col : string,
        dump_row misaligned_file end_ 4 i =
          (format_x 8 i ++ "  " ++ hex_col ++ " |" ++ ascii_col ++ "|")%string /\
        String.length (format_x 8 i) = 8%nat /\
        Z.of_nat (String.length hex_col) = 3 * 4 /\
        Z.of_nat (String.length ascii_col) = Z.min 4 (end_ - i).
Proof.
  apply (hexdump_row_layout misaligned_file 0 256 4).
  - lia.
  - lia.
  - vm_compute. discriminate.
Defined.

(** Two buffers that agree on a window agree on every part of it. *)
Lemma slice_within {A : Type} (data data' : list A) (a b i j : Z) :
  0 <= a <= i -> i <= j <= b ->
  slice data a b = slice data' a b ->
  slice data i j = slice data' i j.
Proof.
  intros Hai Hjb Heq.
  assert (Hsub : forall d : list A,
            slice d i j = slice (slice d a b) (i - a) (i - a + (j - i))).
  { intros d. rewrite slice_slice by lia. f_equal; lia. }
  rewrite (Hsub data), (Hsub data'), Heq. reflexivity.
Qed.

(** X4: the dump depends on the data only through its length and the
    bytes of the window [offset, end) with
    [end = min(offset + length, len(data))]: two buffers of the same
    length that agree on that window have the same dump, whatever the
    bytes before and after it. *)
Theorem hexdump_reads_only_the_window (data data' : bytes)
    (offset length width : Z) :
  0 <= offset -> 0 < width ->
  len data = len data' ->
  slice data offset (Z.min (offset + length) (len data)) =
  slice data' offset (Z.min (offset + length) (len data)) ->
  hexdump data offset length width = hexdump data' offset length width.
Proof.
  intros Ho Hw Hlen Hwin.
  destruct (hexdump_as_rows data offset length width Ho Hw)
    as (rows & Hrows & Hin & ->).
  destruct (hexdump_as_rows data' offset length width Ho Hw)
    as (rows' & Hrows' & _ & ->).
  rewrite <- Hlen in *. rewrite Hrows in Hrows'. injection Hrows' as <-.
  do 2 f_equal. apply map_ext_in. intros i Hi. apply Hin in Hi.
  unfold dump_row. cbv zeta.
  rewrite (slice_within data data' offset
             (Z.min (offset + length) (len data)) i
             (Z.min (i + width) (Z.min (offset + length) (len data))))
    by (trivial; lia).
  reflexivity.
Qed.

Lemma hexdump_reads_only_the_window_witness :
  hexdump misaligned_file 7 8 16 = hexdump (repeat x00 7 ++ magic_only_file) 7 8 16.
Proof.
  apply (hexdump_reads_only_the_window misaligned_file
           (repeat x00 7 ++ magic_only_file) 7 8 16).
  - lia.
  - lia.
  - reflexivity.
  - reflexivity.
Defined.

Lemma map_seq_shift {B : Type} (f : nat -> B) (a n : nat) :
  map f (seq a n) = map (fun k => f (a + k)%nat) (seq 0 n).
Proof.
  revert a. induction n as [|n IH]; intros a; [reflexivity|].
  cbn [seq map]. rewrite Nat.add_0_r. f_equal.
  rewrite IH, <- seq_shift, map_map.
  apply map_ext. intros k. f_equal. lia.
Qed.

Lemma string_concat_app (sep : string) (l1 l2 : list string) :
  l1 <> [] -> l2 <> [] ->
  String.concat sep (l1 ++ l2) =
  (String.concat sep l1 ++ sep ++ String.concat sep l2)%string.
Proof.
  intros H1 H2. induction l1 as [|x l1 IH]; [congruence|].
  destruct l1 as [|y l1].
  - destruct l2 as [|z l2]; [congruence | reflexivity].
  - change (String.concat sep ((x :: y :: l1) ++ l2))
      with (x ++ sep ++ String.concat sep ((y :: l1) ++ l2))%string.
    rewrite IH by discriminate.
    change (String.concat sep (x :: y :: l1))
      with (x ++ sep ++ String.concat sep (y :: l1))%string.
    now rewrite !append_assoc.
Qed.

(** X5: a window can be dumped in pieces: when the first piece is a
    positive multiple of the width and ends before the end of the data,
    the dump of the first [l1] bytes, a newline, and the dump of the
    next [l2 > 0] bytes are together the dump of the [l1 + l2] bytes. *)
Theorem hexdump_composes (data : bytes) (offset l1 l2 width : Z) :
  0 <= offset -> 0 < width ->
  0 < l1 -> l1 mod width = 0 -> offset + l1 < len data ->
  0 < l2 ->
  exists t1 t2 : string,
    hexdump data offset l1 width = Returns t1 /\
    hexdump data (offset + l1) l2 width = Returns t2 /\
    hexdump data offset (l1 + l2) width = Returns (t1 ++ newline ++ t2)%string.
Proof.
  intros Ho Hw Hl1 Hmod Hin Hl2.
  destruct (hexdump_as_rows data offset l1 width Ho Hw)
    as (rows1 & Hrows1 & _ & ->).
  destruct (hexdump_as_rows data (offset + l1) l2 width ltac:(lia) Hw)
    as (rows2 & Hrows2 & _ & ->).
  destruct (hexdump_as_rows data offset (l1 + l2) width Ho Hw)
    as (rows & Hrows & _ & ->).
  rewrite (Z.min_l (offset + l1)) in * by lia.
  replace (offset + (l1 + l2)) with (offset + l1 + l2) in * by lia.
  set (e := Z.min (offset + l1 + l2) (len data)) in *.
  assert (He : offset + l1 < e) by (subst e; lia).
  set (q := l1 / width).
  assert (Hq : l1 = q * width).
  { subst q. rewrite Z.mul_comm. apply Z.div_exact; lia. }
  assert (Hqpos : 0 < q) by nia.
  rewrite py_range_pos in Hrows1, Hrows2, Hrows by trivial.
  injection Hrows1 as <-. injection Hrows2 as <-. injection Hrows as <-.
  set (n2 := (e - (offset + l1) + width - 1) / width).
  assert (Hn2 : 1 <= n2) by (apply Z.div_le_lower_bound; lia).
  assert (Hn1 : (offset + l1 - offset + width - 1) / width = q).
  { replace (offset + l1 - offset + width - 1)
      with (q * width + (width - 1)) by lia.
    rewrite Z.div_add_l by lia. rewrite Z.div_small; lia. }
  assert (Hn12 : (e - offset + width - 1) / width = q + n2).
  { replace (e - offset + width - 1)
      with (q * width + (e - (offset + l1) + width - 1)) by lia.
    apply Z.div_add_l. lia. }
  rewrite Hn1, Hn12.
  rewrite Z2Nat.inj_add, seq_app, !map_app by lia.
  cbn [Nat.add]. rewrite (map_seq_shift _ (Z.to_nat q)).
  exists (String.concat newline
            (map (dump_row data (offset + l1) width)
                 (map (fun k => offset + Z.of_nat k * width)
                      (seq 0 (Z.to_nat q))))).
  eexists. split; [reflexivity|]. split; [reflexivity|].
  rewrite string_concat_app.
  - f_equal. f_equal; [|f_equal].
    + f_equal. rewrite !map_map. apply map_ext_in.
      intros k Hk. apply in_seq in Hk.
      unfold dump_row. cbv zeta.
      assert (Hrow : offset + Z.of_nat k * width + width <= offset + l1)
        by nia.
      rewrite !Z.min_l by lia. reflexivity.
    + f_equal. rewrite !map_map. apply map_ext.
      intros k. f_equal. nia.
  - destruct (Z.to_nat q) eqn:E; [lia | discriminate].
  - destruct (Z.to_nat n2) eqn:E; [lia | discriminate].
Qed.

Lemma hexdump_composes_witness :
  exists t1 t2 : string,
    hexdump list_pointer_file 4 16 8 = Returns t1 /\
    hexdump list_pointer_file (4 + 16) 8 8 = Returns t2 /\
    hexdump list_pointer_file 4 (16 + 8) 8 =
      Returns (t1 ++ newline ++ t2)%string.
Proof.
  apply (hexdump_composes list_pointer_file 4 16 8 8).
  - lia.
  - lia.
  - lia.
  - reflexivity.
  - vm_compute. reflexivity.
  - lia.
Defined.

(** ** Header analysis: short files, sentinel inside the header *)

(** Four bytes are enough for [analyze_header] to return. *)
Lemma analyze_header_long (data : bytes) :
  4 <= len data -> exists h : header_info, analyze_header data = Returns h.
Proof.
  intros Hlong. unfold analyze_header, unpack_I.
  rewrite (slice_len data 0 4) by lia.
  change (4 - 0 =? 4) with true. cbv iota. cbn [bind].
  destruct (find data DAT_MAGIC_NUMBER 0 =? -1); eexists; reflexivity.
Qed.

(** X6: [analyze_header] raises exactly for buffers shorter than 4 bytes
    (the [struct.error] of the row count), the empty file included;
    for any longer buffer it returns a header whose file size is the
    buffer length, whose row count is the little-endian value of bytes
    0-3, below 2^32, and whose table offset is 4. *)
Theorem analyze_header_raises_iff_short (data : bytes) :
  (len data < 4 /\ analyze_header data = Raises StructError) \/
  (4 <= len data /\
   exists h : header_info,
     analyze_header data = Returns h /\
     file_size h = len data /\
     row_count h = le_uint (slice data 0 4) /\
     0 <= row_count h < 2 ^ 32 /\
     table_offset h = 4).
Proof.
  destruct (Z.lt_ge_cases (len data) 4) as [Hshort | Hlong].
  - left. split; [exact Hshort | now apply analyze_header_short].
  - right. split; [exact Hlong|].
    destruct (analyze_header data) as [h | e |] eqn:E.
    + exists h. split; [reflexivity|].
      now apply analyze_header_common.
    + exfalso. unfold analyze_header, unpack_I in E.
      rewrite (slice_len data 0 4) in E by lia. cbn [bind] in E.
      change (4 - 0 =? 4) with true in E. cbv iota in E. cbn [bind] in E.
      destruct (find data DAT_MAGIC_NUMBER 0 =? -1); discriminate.
    + exfalso. unfold analyze_header, unpack_I in E.
      rewrite (slice_len data 0 4) in E by lia.
      change (4 - 0 =? 4) with true in E. cbv iota in E. cbn [bind] in E.
      destruct (find data DAT_MAGIC_NUMBER 0 =? -1); discriminate.
Qed.

(** The empty file. *)
Example analyze_header_empty_file : analyze_header [] = Raises StructError.
Proof. reflexivity. Qed.

Section HeaderEdges.

Variable char_isprintable : Z -> bool.

(** The byte at index 3 of a buffer whose sentinel starts before 4. *)
Lemma sentinel_covers_byte_3 (data : bytes) (m : Z) :
  0 <= m < 4 -> slice data m (m + 8) = DAT_MAGIC_NUMBER ->
  slice data 3 4 = [xbb].
Proof.
  intros Hm Hmagic.
  replace (slice data 3 4)
    with (slice (slice data m (m + 8)) (3 - m) (3 - m + 1))
    by (rewrite slice_slice by lia; f_equal; lia).
  rewrite Hmagic.
  assert (Hcases : m = 0 \/ m = 1 \/ m = 2 \/ m = 3) by lia.
  destruct Hcases as [-> | [-> | [-> | ->]]]; reflexivity.
Qed.

(** X7: when the sentinel starts within the first 4 bytes, the row count
    read from those bytes is at least 0xBB000000, the table length
    [magic_offset - 4] is negative and the record length is -1; the
    inference then examines no column: it declines when the offset is 0
    and prints only its banner otherwise. *)
Theorem sentinel_inside_header (data : bytes) (h : header_info) (m : Z) :
  analyze_header data = Returns h ->
  magic_offset h = Some m ->
  m < 4 ->
  0xBB000000 <= row_count h /\
  table_length h = Some (m - 4) /\ m - 4 < 0 /\
  record_length h = Some (-1) /\
  infer_column_types char_isprintable data h =
    Returns (if m =? 0 then [CannotInfer] else [Banner (-1)]).
Proof.
  intros H Hm Hlt.
  destruct (analyze_header_found data h m H Hm)
    as (Hf & Hne & Ht & Hr & _).
  destruct (analyze_header_common data h H) as (Hlen & _ & Hrc & _).
  destruct (find_magic_spec data) as [[E _] | (H0 & Hfit & Hat & _)];
    [congruence|].
  rewrite <- Hf in *.
  assert (Hbig : 0xBB000000 <= row_count h).
  { rewrite Hrc, (slice_split data 0 3 4) by lia.
    rewrite le_uint_app, (sentinel_covers_byte_3 data m) by (trivial; lia).
    rewrite slice_len by lia.
    pose proof (le_uint_range (slice data 0 3)) as Hlo.
    change (le_uint [xbb]) with 187. change (256 ^ (3 - 0)) with 16777216.
    lia. }
  assert (Hrl : record_length h = Some (-1)).
  { rewrite Hr. destruct (Z.ltb_spec 0 (row_count h)); [|lia].
    f_equal. symmetry.
    apply (Z.div_unique_pos (m - 4) (row_count h) (-1) (row_count h + m - 4));
      lia. }
  repeat split; trivial; [lia|].
  unfold infer_column_types. rewrite Hm, Hrl.
  destruct (m =? 0); reflexivity.
Qed.

End HeaderEdges.

Lemma sentinel_inside_header_witness :
  0xBB000000 <= row_count magic_only_header /\
  table_length magic_only_header = Some (0 - 4) /\
  0 - 4 < 0 /\
  record_length magic_only_header = Some (-1) /\
  infer_column_types ascii_isprintable magic_only_file magic_only_header =
    Returns (if 0 =? 0 then [CannotInfer] else [Banner (-1)]).
Proof.
  apply (sentinel_inside_header ascii_isprintable magic_only_file
           magic_only_header 0).
  - reflexivity.
  - reflexivity.
  - lia.
Defined.

(** X8: when the sentinel is found at offset 4 or later, the record
    length is 0 exactly when no row is announced or the table holds
    fewer bytes than the announced row count. *)
Theorem record_length_zero_iff (data : bytes) (h : header_info) (m : Z) :
  analyze_header data = Returns h ->
  magic_offset h = Some m ->
  4 <= m ->
  (record_length h = Some 0 <->
   row_count h = 0 \/ m - 4 < row_count h).
Proof.
  intros H Hm H4.
  destruct (analyze_header_found data h m H Hm) as (_ & _ & _ & Hr & _).
  destruct (analyze_header_common data h H) as (_ & _ & _ & Hrc & _).
  rewrite Hr.
  destruct (Z.ltb_spec 0 (row_count h)) as [Hpos | Hzero].
  - split.
    + intros E. injection E as E.
      apply Z.div_small_iff in E; lia.
    + intros [E | E]; [lia|]. f_equal. apply Z.div_small. lia.
  - split; [intros _; left; lia | reflexivity].
Qed.

Lemma record_length_zero_iff_witness :
  record_length misaligned_header = Some 0 <->
  row_count misaligned_header = 0 \/ 7 - 4 < row_count misaligned_header.
Proof.
  apply (record_length_zero_iff misaligned_file misaligned_header 7).
  - reflexivity.
  - reflexivity.
  - lia.
Defined.

Section InferenceEdges.

Variable char_isprintable : Z -> bool.

(** On a header returned for the same bytes the inference returns. *)
Lemma infer_column_types_total (data : bytes) (h : header_info) :
  analyze_header data = Returns h ->
  exists lines : list line,
    infer_column_types char_isprintable data h = Returns lines.
Proof.
  intros H. unfold infer_column_types.
  destruct (magic_offset h) as [m|] eqn:Hm; [|eauto].
  destruct (record_length h) as [rl|] eqn:Hrl; [|eauto].
  destruct ((m =? 0) || (rl =? 0)) eqn:Hdecline; [eauto|].
  apply orb_false_iff in Hdecline as (Hm0 & Hrl0).
  destruct (Z.lt_ge_cases 0 rl) as [Hpos | Hneg].
  - pose proof (infer_column_types_report char_isprintable data h m rl
                  H Hm Hrl Hpos) as Hrun.
    unfold infer_column_types in Hrun. rewrite Hm, Hrl, Hm0, Hrl0 in Hrun.
    cbn [orb] in Hrun. eauto.
  - replace (Z.to_nat rl) with 0%nat by lia. cbn [while_loop].
    destruct (Z.ltb_spec 0 rl); [lia|]. cbn [bind]. eauto.
Qed.

(** X9: on a header that [analyze_header] returned for the same bytes,
    [infer_column_types] always returns: it prints the single line
    "Cannot infer columns" exactly when the sentinel is missing or at
    offset 0 or the record length is 0, and otherwise its output starts
    with the banner that names the record length. *)
Theorem infer_column_types_returns (data : bytes) (h : header_info) :
  analyze_header data = Returns h ->
  ((magic_offset h = None \/ magic_offset h = Some 0 \/
    record_length h = Some 0) /\
   infer_column_types char_isprintable data h = Returns [CannotInfer]) \/
  (exists (m rl : Z) (rest : list line),
     magic_offset h = Some m /\ m <> 0 /\
     record_length h = Some rl /\ rl <> 0 /\
     infer_column_types char_isprintable data h =
       Returns (Banner rl :: rest)).
Proof.
  intros H.
  destruct (magic_offset h) as [m|] eqn:Hm.
  - destruct (analyze_header_found data h m H Hm) as (_ & _ & _ & Hr & _).
    set (rl := if 0 <? row_count h then (m - 4) / row_count h else 0) in Hr.
    destruct (Z.eq_dec m 0) as [-> | Hm0].
    { left. split; [tauto|].
      unfold infer_column_types. rewrite Hm, Hr. reflexivity. }
    destruct (Z.lt_trichotomy rl 0) as [Hneg | [Hzero | Hpos]].
    + right. exists m, rl, []. repeat split; trivial; [lia|].
      unfold infer_column_types. rewrite Hm, Hr.
      destruct (Z.eqb_spec m 0); [lia|].
      destruct (Z.eqb_spec rl 0); [lia|]. cbn [orb].
      replace (Z.to_nat rl) with 0%nat by lia. cbn [while_loop].
      destruct (Z.ltb_spec 0 rl); [lia | reflexivity].
    + left. split; [rewrite Hr, Hzero; tauto|].
      unfold infer_column_types. rewrite Hm, Hr, Hzero.
      now destruct (m =? 0).
    + right. exists m, rl. eexists. repeat split; trivial; [lia|].
      apply (infer_column_types_report char_isprintable data h m rl);
        trivial.
  - left. split; [tauto|].
    unfold infer_column_types. rewrite Hm. reflexivity.
Qed.

End InferenceEdges.

Lemma infer_column_types_returns_witness :
  ((magic_offset scalar_header = None \/
    magic_offset scalar_header = Some 0 \/
    record_length scalar_header = Some 0) /\
   infer_column_types ascii_isprintable scalar_file scalar_header =
     Returns [CannotInfer]) \/
  (exists (m rl : Z) (rest : list line),
     magic_offset scalar_header = Some m /\ m <> 0 /\
     record_length scalar_header = Some rl /\ rl <> 0 /\
     infer_column_types ascii_isprintable scalar_file scalar_header =
       Returns (Banner rl :: rest)).
Proof.
  apply (infer_column_types_returns ascii_isprintable scalar_file
           scalar_header).
  reflexivity.
Defined.

(** ** Inference: columns reported, list pointers *)

Lemma concat_map_singletons {A B : Type} (g : A -> list B) (c : A -> B)
    (l : list A) :
  (forall x, In x l -> g x = [c x]) -> List.concat (map g l) = map c l.
Proof.
  induction l as [|x l IH]; intros Hg; [reflexivity|].
  cbn [map List.concat]. rewrite Hg by now left.
  rewrite IH by (intros y Hy; apply Hg; now right). reflexivity.
Qed.

Lemma concat_map_empties {A B : Type} (g : A -> list B) (l : list A) :
  (forall x, In x l -> g x = []) -> List.concat (map g l) = [].
Proof.
  induction l as [|x l IH]; intros Hg; [reflexivity|].
  cbn [map List.concat]. rewrite Hg by now left.
  rewrite IH by (intros y Hy; apply Hg; now right). reflexivity.
Qed.

Lemma pointer_line_is_no_header (l : line) :
  is_pointer_line l = true -> is_column_header l = false.
Proof. now destruct l. Qed.

Section Columns.

Variable char_isprintable : Z -> bool.

(** The classification lines never open a column. *)
Lemma classification_has_no_header (first_row data_section : bytes)
    (rl dss offset : Z) :
  filter is_column_header
    (classification char_isprintable first_row data_section rl dss offset)
  = [].
Proof.
  unfold classification. cbv zeta.
  destruct ((0 <? _) && (_ <? dss)).
  - destruct ((offset + 16 <=? rl) && _).
    + now destruct (_ <=? dss).
    + cbn [filter].
      destruct (describe_pointer_line char_isprintable data_section
                  (le_uint (slice first_row offset (offset + 8))))
        as (Hp & _).
      now rewrite (pointer_line_is_no_header _ Hp).
  - now destruct (is_null_pattern _).
Qed.

Lemma stride_lines_header (first_row data_section : bytes)
    (rl dss : Z) (k : nat) :
  filter is_column_header
    (stride_lines char_isprintable first_row data_section rl dss k) =
  if 8 * Z.of_nat k + 8 <=? rl
  then [ColAt (Z.of_nat k) (8 * Z.of_nat k)] else [].
Proof.
  unfold stride_lines. cbv zeta.
  destruct (8 * Z.of_nat k + 8 <=? rl); [|reflexivity].
  cbn [filter is_column_header].
  now rewrite classification_has_no_header.
Qed.

(** X10: for a positive record length the inference reports exactly
    [record_length // 8] columns, numbered from 0 and placed at the
    offsets 0, 8, 16, ...; the last [record_length % 8] bytes of the
    record are not reported at all. *)
Theorem reported_columns (data : bytes) (h : header_info) (m rl : Z) :
  analyze_header data = Returns h ->
  magic_offset h = Some m ->
  record_length h = Some rl ->
  0 < rl ->
  exists lines : list line,
    infer_column_types char_isprintable data h = Returns lines /\
    filter is_column_header lines =
    map (fun k => ColAt (Z.of_nat k) (8 * Z.of_nat k))
        (seq 0 (Z.to_nat (rl / 8))).
Proof.
  intros H Hm Hrl Hpos.
  eexists. split.
  - apply (infer_column_types_report char_isprintable data h m rl);
      trivial.
  - cbn [filter is_column_header].
    rewrite <- concat_filter_map, map_map.
    assert (Hfloor : 0 <= rl / 8) by (apply Z.div_pos; lia).
    assert (Hceil : (rl / 8 <= (rl + 7) / 8)).
    { apply Z.div_le_mono; lia. }
    replace (Z.to_nat ((rl + 7) / 8))
      with (Z.to_nat (rl / 8) + (Z.to_nat ((rl + 7) / 8) - Z.to_nat (rl / 8)))%nat
      by lia.
    rewrite seq_app, map_app, List.concat_app.
    rewrite (concat_map_singletons _
               (fun k => ColAt (Z.of_nat k) (8 * Z.of_nat k))).
    + rewrite concat_map_empties; [apply app_nil_r|].
      intros k Hk. apply in_seq in Hk. rewrite stride_lines_header.
      destruct (Z.leb_spec (8 * Z.of_nat k + 8) rl) as [Hfull | _];
        [|reflexivity].
      assert (Z.of_nat k + 1 <= rl / 8)
        by (apply Z.div_le_lower_bound; lia).
      lia.
    + intros k Hk. apply in_seq in Hk. rewrite stride_lines_header.
      destruct (Z.leb_spec (8 * Z.of_nat k + 8) rl) as [_ | Hpart];
        [reflexivity|].
      assert (8 * (rl / 8) <= rl) by (apply Z.mul_div_le; lia).
      lia.
Qed.

End Columns.

Lemma reported_columns_witness :
  exists lines : list line,
    infer_column_types ascii_isprintable list_pointer_file
                       list_pointer_header = Returns lines /\
    filter is_column_header lines =
    map (fun k => ColAt (Z.of_nat k) (8 * Z.of_nat k))
        (seq 0 (Z.to_nat (16 / 8))).
Proof.
  apply (reported_columns ascii_isprintable list_pointer_file
           list_pointer_header 20 16).
  - reflexivity.
  - reflexivity.
  - reflexivity.
  - lia.
Defined.

(** ** The report, group by group *)

Section Groups.

Variable char_isprintable : Z -> bool.

(** The report of a header with a positive record length is the banner
    followed by one group of lines per stride, in order: a stride that
    does not hold 8 bytes prints nothing, any other prints its column
    header, its value and its classification, and a classification never
    holds a column header, so the groups are the parts of the report
    between one column header and the next. *)
Lemma report_groups (data : bytes) (h : header_info) (m rl : Z) :
  analyze_header data = Returns h ->
  magic_offset h = Some m ->
  record_length h = Some rl ->
  0 < rl ->
  let first_row := slice data 4 (4 + rl) in
  let payload := slice_from data (m + 8) in
  len payload = len data - m - 8 /\
  exists cols : list (list line),
    infer_column_types char_isprintable data h =
      Returns (Banner rl :: List.concat cols) /\
    List.length cols = Z.to_nat ((rl + 7) / 8) /\
    forall k : nat, (k < List.length cols)%nat ->
      (rl < 8 * Z.of_nat k + 8 -> nth_error cols k = Some []) /\
      (8 * Z.of_nat k + 8 <= rl ->
       let v := le_uint (slice data (4 + 8 * Z.of_nat k)
                               (4 + 8 * Z.of_nat k + 8)) in
       le_uint (slice first_row (8 * Z.of_nat k) (8 * Z.of_nat k + 8)) = v /\
       nth_error cols k =
         Some (ColAt (Z.of_nat k) (8 * Z.of_nat k) :: U64 v ::
               classification char_isprintable first_row payload rl
                 (len payload) (8 * Z.of_nat k)) /\
       filter is_column_header
         (classification char_isprintable first_row payload rl
            (len payload) (8 * Z.of_nat k)) = []).
Proof.
  intros H Hm Hrl Hpos first_row payload.
  destruct (positive_record_geometry data h m rl H Hm Hrl Hpos)
    as (Hm4 & Hfit & _).
  assert (Hpayload : len payload = len data - m - 8).
  { subst payload. unfold slice_from, clamp.
    destruct (Z.ltb_spec (m + 8) 0); [lia|].
    rewrite Z.min_l, len_skipn by lia. lia. }
  split; [exact Hpayload|].
  eexists. split; [|split].
  - apply (infer_column_types_report char_isprintable data h m rl);
      trivial.
  - now rewrite length_map, length_seq.
  - intros k Hk. rewrite length_map, length_seq in Hk.
    rewrite nth_error_strides by exact Hk.
    fold first_row. fold payload. rewrite <- Hpayload.
    split.
    + intros Hpart. unfold stride_lines. cbv zeta.
      destruct (Z.leb_spec (8 * Z.of_nat k + 8) rl); [lia | reflexivity].
    + intros Hfull v. unfold stride_lines. cbv zeta.
      destruct (Z.leb_spec (8 * Z.of_nat k + 8) rl); [|lia].
      assert (Hv : le_uint (slice first_row (8 * Z.of_nat k)
                              (8 * Z.of_nat k + 8)) = v).
      { subst first_row v. now rewrite slice_slice by lia. }
      split; [exact Hv|]. split.
      * now rewrite Hv.
      * apply classification_has_no_header.
Qed.

(** In the payload range every classification line is a pointer line
    or a line of the list preview. *)
Lemma classification_in_range_lines (first_row data_section : bytes)
    (rl dss offset : Z) :
  0 < le_uint (slice first_row offset (offset + 8)) < dss ->
  forallb is_pointer_report_line
    (classification char_isprintable first_row data_section rl dss offset)
  = true.
Proof.
  intros Hv. unfold classification. cbv zeta.
  destruct (Z.ltb_spec 0 (le_uint (slice first_row offset (offset + 8))));
    [|lia].
  destruct (Z.ltb_spec (le_uint (slice first_row offset (offset + 8))) dss);
    [|lia].
  cbn [andb].
  destruct ((offset + 16 <=? rl) && _).
  - now destruct (_ <=? dss).
  - cbn [forallb].
    destruct (describe_pointer_line char_isprintable data_section
                (le_uint (slice first_row offset (offset + 8)))) as (Hp & _).
    destruct (describe_pointer _ _ _); try discriminate; reflexivity.
Qed.

End Groups.

Lemma concat_empty_sep_cons (x : string) (l : list string) :
  String.concat "" (x :: l) = (x ++ String.concat "" l)%string.
Proof.
  destruct l as [|y l]; [now rewrite append_nil_r | reflexivity].
Qed.

(** Two hex digits per byte. *)
Lemma hex_length (b : bytes) :
  String.length (hex b) = (2 * List.length b)%nat.
Proof.
  unfold hex. induction b as [|x b IH]; [reflexivity|].
  cbn [map List.length]. rewrite concat_empty_sep_cons, length_append.
  rewrite format_x_byte_length, IH. lia.
Qed.

Lemma substring_all (s : string) (n : nat) :
  (String.length s <= n)%nat -> substring 0 n s = s.
Proof.
  revert n. induction s as [|c s IH]; intros n Hn.
  - now destruct n.
  - destruct n as [|n]; simpl in Hn; [lia|].
    simpl. now rewrite IH by lia.
Qed.

Lemma slice_from_len {A : Type} (data : list A) (a : Z) :
  0 <= a <= len data -> len (slice_from data a) = len data - a.
Proof.
  intros Ha. unfold slice_from, clamp.
  destruct (Z.ltb_spec a 0); [lia|].
  rewrite Z.min_l, len_skipn by lia. lia.
Qed.

Section ListPointers.

Variable char_isprintable : Z -> bool.

(** The value read at an offset of the first record, in the file. *)
Lemma first_row_value (data : bytes) (rl a : Z) :
  0 <= a -> a + 8 <= rl ->
  le_uint (slice (slice data 4 (4 + rl)) a (a + 8)) =
  le_uint (slice data (4 + a) (4 + a + 8)).
Proof.
  intros Ha Hrl. now rewrite slice_slice by lia.
Qed.



(** The classification of a stride that holds a (count, offset) pair
    whose two values both lie within the payload range. *)
Lemma classification_list_pointer (first_row data_section : bytes)
    (rl dss o : Z) :
  let v := le_uint (slice first_row o (o + 8)) in
  let next := le_uint (slice first_row (o + 8) (o + 16)) in
  o + 16 <= rl -> 0 < v < dss -> 0 < next < dss ->
  classification char_isprintable first_row data_section rl dss o =
  ListPointer v next ::
  (if next + v * 8 <=? dss then
     [DataSectionRead;
      SampleHex (substring 0 128
                   (hex (slice data_section next
                               (next + Z.min 64 (v * 8)))))]
   else []).
Proof.
  intros v next Hpair Hv Hnext.
  unfold classification. cbv zeta. fold v. fold next.
  destruct (Z.ltb_spec 0 v); [|lia].
  destruct (Z.ltb_spec v dss); [|lia].
  destruct (Z.leb_spec (o + 16) rl); [|lia].
  destruct (Z.ltb_spec 0 next); [|lia].
  destruct (Z.ltb_spec next dss); [|lia].
  reflexivity.
Qed.

(** X12: the report of a header with a positive record length is the
    banner followed by one group of lines per stride (a stride that does
    not hold 8 bytes prints nothing; the groups are the parts of the
    report between one column header and the next). In the group of a
    stride that is reported as a list pointer [(count, offset)], the
    lines after the list pointer line are the payload preview and
    nothing else: there is none when
    [offset + count * 8 > payload_length], and otherwise the preview
    shows [min(64, count * 8)] bytes, all of them inside the payload, as
    twice as many hex digits, none being cut off. *)
Theorem list_pointer_preview (data : bytes) (h : header_info) (m rl : Z) :
  analyze_header data = Returns h ->
  magic_offset h = Some m ->
  record_length h = Some rl ->
  0 < rl ->
  let payload := slice_from data (m + 8) in
  exists cols : list (list line),
    infer_column_types char_isprintable data h =
      Returns (Banner rl :: List.concat cols) /\
    List.length cols = Z.to_nat ((rl + 7) / 8) /\
    forall k : nat, (k < List.length cols)%nat ->
      (rl < 8 * Z.of_nat k + 8 -> nth_error cols k = Some []) /\
      (8 * Z.of_nat k + 8 <= rl ->
       let v := le_uint (slice data (4 + 8 * Z.of_nat k)
                               (4 + 8 * Z.of_nat k + 8)) in
       let next := le_uint (slice data (4 + 8 * Z.of_nat k + 8)
                                  (4 + 8 * Z.of_nat k + 16)) in
       exists cls : list line,
         nth_error cols k =
           Some (ColAt (Z.of_nat k) (8 * Z.of_nat k) :: U64 v :: cls) /\
         filter is_column_header cls = [] /\
         (8 * Z.of_nat k + 16 <= rl ->
          0 < v < len payload -> 0 < next < len payload ->
          exists sample : list line,
            cls = ListPointer v next :: sample /\
            (len payload < next + v * 8 -> sample = []) /\
            (next + v * 8 <= len payload ->
             let shown := slice payload next (next + Z.min 64 (v * 8)) in
             sample = [DataSectionRead; SampleHex (hex shown)] /\
             len shown = Z.min 64 (v * 8) /\
             Z.of_nat (String.length (hex shown)) =
               2 * Z.min 64 (v * 8)))).
Proof.
  intros H Hm Hrl Hpos payload.
  destruct (report_groups char_isprintable data h m rl H Hm Hrl Hpos)
    as (Hpayload & cols & Hrun & Hlen & Hgroups).
  fold payload in Hpayload, Hgroups.
  exists cols. split; [exact Hrun|]. split; [exact Hlen|].
  intros k Hk. destruct (Hgroups k Hk) as (Hpart & Hfull).
  split; [exact Hpart|]. intros Hk8 v next.
  destruct (Hfull Hk8) as (Hv & Hnth & Hheader). fold v in Hv, Hnth.
  set (first_row := slice data 4 (4 + rl)) in *.
  eexists. split; [exact Hnth|]. split; [exact Hheader|].
  intros Hk16 Hvr Hnr.
  assert (Hnext : le_uint (slice first_row (8 * Z.of_nat k + 8)
                             (8 * Z.of_nat k + 16)) = next).
  { subst first_row next.
    replace (8 * Z.of_nat k + 16) with (8 * Z.of_nat k + 8 + 8) by lia.
    rewrite first_row_value by lia. do 2 f_equal; lia. }
  rewrite (classification_list_pointer first_row payload rl (len payload)
             (8 * Z.of_nat k)) by (rewrite ?Hv, ?Hnext; lia).
  rewrite Hv, Hnext.
  eexists. split; [reflexivity|]. split.
  - intros Hout.
    destruct (Z.leb_spec (next + v * 8) (len payload)); [lia | reflexivity].
  - intros Hin shown.
    destruct (Z.leb_spec (next + v * 8) (len payload)); [|lia].
    assert (Hshown : len shown = Z.min 64 (v * 8))
      by (subst shown; rewrite slice_len; lia).
    assert (Hhex : Z.of_nat (String.length (hex shown)) =
                   2 * Z.min 64 (v * 8)).
    { rewrite hex_length. unfold len in Hshown. lia. }
    fold shown. rewrite substring_all by lia. auto.
Qed.

End ListPointers.


(** The report for that file: the eight bytes of the list are shown. *)
Example preview_file_report :
  analyze_header preview_file = Returns preview_header /\
  infer_column_types ascii_isprintable preview_file preview_header =
  Returns [Banner 16;
           ColAt 0 0; U64 1; ListPointer 1 2;
           DataSectionRead; SampleHex "1213141516171819";
           ColAt 1 8; U64 2; DataPointer 2].
Proof. split; reflexivity. Qed.

(** ** Pattern detection *)

Lemma starts_with_length (sub l : bytes) :
  starts_with sub l = true -> (List.length sub <= List.length l)%nat.
Proof.
  intros H. apply starts_with_firstn in H.
  apply (f_equal (@List.length byte)) in H.
  rewrite length_firstn in H. lia.
Qed.

Lemma starts_with_nil (sub : bytes) :
  sub <> [] -> starts_with sub [] = false.
Proof. now destruct sub. Qed.

Lemma count_from_nonneg (sub l : bytes) :
  forall skip : nat, 0 <= count_from sub l skip.
Proof.
  induction l as [|x l IH]; intros skip; cbn [count_from]; [lia|].
  destruct skip as [|skip]; [|apply IH].
  destruct (starts_with sub (x :: l)).
  - specialize (IH (List.length sub - 1)%nat). lia.
  - apply IH.
Qed.

(** The matches that are counted do not overlap. *)
Lemma count_from_bound (sub l : bytes) :
  sub <> [] ->
  forall skip : nat,
    len sub * count_from sub l skip + Z.of_nat (Nat.min skip (List.length l))
    <= len l.
Proof.
  intros Hsub. assert (Hn : 0 < len sub).
  { destruct sub; [congruence|]. unfold len. simpl. lia. }
  induction l as [|x l IH]; intros skip; cbn [count_from].
  - unfold len. simpl. lia.
  - assert (Hl : len (x :: l) = len l + 1)
      by (unfold len; simpl List.length; lia).
    destruct skip as [|skip].
    + destruct (starts_with sub (x :: l)) eqn:E.
      * apply starts_with_length in E. simpl List.length in E.
        specialize (IH (List.length sub - 1)%nat).
        rewrite Nat.min_l in IH by lia.
        unfold len in *. simpl List.length. nia.
      * specialize (IH 0%nat). simpl in IH |- *. lia.
    + specialize (IH skip). simpl List.length.
      rewrite <- Nat.succ_min_distr. lia.
Qed.

(** A pattern that occurs somewhere is counted at least once. *)
Lemma count_from_occurs (sub l : bytes) :
  sub <> [] ->
  forall k : nat,
    starts_with sub (skipn k l) = true -> 0 < count_from sub l 0.
Proof.
  intros Hsub. induction l as [|x l IH]; intros k Hk.
  - rewrite skipn_nil, starts_with_nil in Hk by trivial. discriminate.
  - cbn [count_from]. destruct (starts_with sub (x :: l)) eqn:E.
    + pose proof (count_from_nonneg sub l (List.length sub - 1)). lia.
    + destruct k as [|k]; [simpl in Hk; congruence|].
      apply (IH k). exact Hk.
Qed.

(** A pattern that is counted occurs somewhere. *)
Lemma count_from_found (sub l : bytes) :
  forall skip : nat,
    0 < count_from sub l skip ->
    exists k : nat, starts_with sub (skipn k l) = true.
Proof.
  induction l as [|x l IH]; intros skip Hc; cbn [count_from] in Hc; [lia|].
  destruct skip as [|skip].
  - destruct (starts_with sub (x :: l)) eqn:E.
    + now exists 0%nat.
    + destruct (IH _ Hc) as (k & Hk). now exists (S k).
  - destruct (IH _ Hc) as (k & Hk). now exists (S k).
Qed.

Lemma starts_with_slice (sub l : bytes) (k : nat) :
  starts_with sub (skipn k l) = true <->
  slice l (Z.of_nat k) (Z.of_nat k + len sub) = sub.
Proof.
  rewrite starts_with_firstn, slice_firstn_skipn by (unfold len; lia).
  unfold len. rewrite !Nat2Z.id. reflexivity.
Qed.

(** What [data.count(sub)] tells, for a pattern that is not empty. *)
Lemma count_spec (data sub : bytes) :
  sub <> [] ->
  0 <= count data sub /\
  len sub * count data sub <= len data /\
  (0 < count data sub <->
   exists k, 0 <= k /\ slice data k (k + len sub) = sub).
Proof.
  intros Hsub. unfold count. destruct sub as [|s sub]; [congruence|].
  split; [apply count_from_nonneg|]. split.
  - pose proof (count_from_bound (s :: sub) data Hsub 0). simpl in *. lia.
  - split.
    + intros Hc. destruct (count_from_found _ _ _ Hc) as (k & Hk).
      exists (Z.of_nat k). split; [lia|]. now apply starts_with_slice.
    + intros (k & Hk & Hs). apply (count_from_occurs _ _ Hsub (Z.to_nat k)).
      apply starts_with_slice. now rewrite Z2Nat.id by lia.
Qed.

(** The list under the key null_patterns, pattern by pattern. *)
Lemma detect_patterns_found (data : bytes) (info : header_info) (m : Z) :
  magic_offset info = Some m -> m <> 0 ->
  Patterns.null_patterns (detect_patterns data info) =
  Some (filter (fun entry => 0 <? snd entry)
               (map (fun pattern => (hex pattern,
                                     count (slice data 4 m) pattern))
                    common_null_patterns)).
Proof.
  intros Hm Hm0. unfold detect_patterns. rewrite Hm.
  destruct (Z.eqb_spec m 0); [lia|].
  cbn [Patterns.null_patterns common_null_patterns fold_left map filter snd].
  repeat match goal with
         | |- context [0 <? ?c] => destruct (0 <? c)
         end; reflexivity.
Qed.

(** X13: for a header whose magic offset is present and not 0,
    [detect_patterns] lists one of the three 4-byte null patterns
    exactly when it occurs somewhere in the table region
    [data[4:magic_offset]], and every listed count is at least 1 and at
    most a quarter of the table length, the occurrences counted being
    disjoint. *)
Theorem listed_null_patterns (data : bytes) (info : header_info) (m : Z) :
  magic_offset info = Some m -> m <> 0 ->
  let table := slice data 4 m in
  exists found : list (string * Z),
    Patterns.null_patterns (detect_patterns data info) = Some found /\
    (forall pattern, In pattern common_null_patterns ->
       ((exists c, In (hex pattern, c) found) <->
        (exists k, 0 <= k /\ slice table k (k + 4) = pattern))) /\
    (forall text c, In (text, c) found ->
       1 <= c /\ 4 * c <= len table /\
       exists pattern, In pattern common_null_patterns /\
         text = hex pattern /\ c = count table pattern).
Proof.
  intros Hm Hm0 table. eexists. split.
  - apply (detect_patterns_found data info m); trivial.
  - fold table. split.
    + intros pattern Hp.
      assert (Hne : pattern <> [])
        by (simpl in Hp; intuition (subst; discriminate)).
      assert (H4 : len pattern = 4)
        by (simpl in Hp; intuition (subst; reflexivity)).
      destruct (count_spec table pattern Hne) as (_ & _ & Hocc).
      rewrite H4 in Hocc. rewrite <- Hocc. split.
      * intros (c & Hc). apply filter_In in Hc as (Hc & Hpos).
        apply in_map_iff in Hc as (p' & Heq & Hp').
        injection Heq as Hhex <-. simpl in Hpos.
        assert (p' = pattern).
        { simpl in Hp, Hp'.
          intuition (subst; try reflexivity; discriminate). }
        subst p'. lia.
      * intros Hc. exists (count table pattern).
        apply filter_In. split; [|simpl; lia].
        apply in_map_iff. now exists pattern.
    + intros text c Hc. apply filter_In in Hc as (Hc & Hpos).
      apply in_map_iff in Hc as (p' & Heq & Hp').
      injection Heq as <- <-. simpl in Hpos.
      assert (Hne : p' <> [])
        by (simpl in Hp'; intuition (subst; discriminate)).
      assert (H4 : len p' = 4)
        by (simpl in Hp'; intuition (subst; reflexivity)).
      destruct (count_spec table p' Hne) as (_ & Hb & _).
      rewrite H4 in Hb. repeat split; try lia. now exists p'.
Qed.

Lemma listed_null_patterns_witness :
  let table := slice list_pointer_file 4 20 in
  exists found : list (string * Z),
    Patterns.null_patterns
      (detect_patterns list_pointer_file list_pointer_header) = Some found /\
    (forall pattern, In pattern common_null_patterns ->
       ((exists c, In (hex pattern, c) found) <->
        (exists k, 0 <= k /\ slice table k (k + 4) = pattern))) /\
    (forall text c, In (text, c) found ->
       1 <= c /\ 4 * c <= len table /\
       exists pattern, In pattern common_null_patterns /\
         text = hex pattern /\ c = count table pattern).
Proof.
  apply (listed_null_patterns list_pointer_file list_pointer_header 20).
  - reflexivity.
  - lia.
Defined.

(** X14: for a header that [analyze_header] returned for the same
    bytes, with the sentinel located at an offset other than 0, the key
    first_row_hex is present exactly when the record length is at least
    4; it then holds the hex digits of the first record
    [data[4 : 4 + record_length]], two per byte. *)
Theorem first_row_hex_of_first_record (data : bytes) (h : header_info)
    (m rl : Z) :
  analyze_header data = Returns h ->
  magic_offset h = Some m ->
  m <> 0 ->
  record_length h = Some rl ->
  (rl < 4 -> Patterns.first_row_hex (detect_patterns data h) = None) /\
  (4 <= rl ->
   Patterns.first_row_hex (detect_patterns data h) =
     Some (hex (slice data 4 (4 + rl))) /\
   Z.of_nat (String.length (hex (slice data 4 (4 + rl)))) = 2 * rl).
Proof.
  intros H Hm Hm0 Hrl. unfold detect_patterns. rewrite Hm, Hrl.
  destruct (Z.eqb_spec m 0); [lia|]. cbn [Patterns.first_row_hex].
  split.
  - intros Hsmall. destruct (Z.leb_spec 4 rl); [lia|].
    now rewrite andb_false_r.
  - intros Hbig.
    destruct (positive_record_geometry data h m rl H Hm Hrl ltac:(lia))
      as (Hm4 & Hfit & Hle & _).
    destruct (Z.eqb_spec rl 0); [lia|].
    destruct (Z.leb_spec 4 rl); [|lia]. cbn [negb andb].
    replace (slice (slice data 4 m) 0 rl) with (slice data 4 (4 + rl)).
    2:{ change rl with (0 + rl) at 2. rewrite slice_slice by lia.
        f_equal; lia. }
    split; [reflexivity|].
    rewrite hex_length.
    pose proof (slice_len data 4 (4 + rl) ltac:(lia) ltac:(lia)) as Hlen.
    unfold len in Hlen. lia.
Qed.

Lemma first_row_hex_of_first_record_witness :
  (16 < 4 ->
   Patterns.first_row_hex
     (detect_patterns list_pointer_file list_pointer_header) = None) /\
  (4 <= 16 ->
   Patterns.first_row_hex
     (detect_patterns list_pointer_file list_pointer_header) =
     Some (hex (slice list_pointer_file 4 (4 + 16))) /\
   Z.of_nat (String.length (hex (slice list_pointer_file 4 (4 + 16)))) =
     2 * 16).
Proof.
  apply (first_row_hex_of_first_record list_pointer_file
           list_pointer_header 20 16).
  - reflexivity.
  - reflexivity.
  - lia.
  - reflexivity.
Defined.

(** ** Comparison of files *)

(** The chunk lines, one per 32 hex digits. *)
Lemma first_row_chunks_rows (s : string) :
  first_row_chunks s =
  Returns (map (fun k : nat =>
    let chunk := str_slice s (0 + Z.of_nat k * 32)
                             (0 + Z.of_nat k * 32 + 32) in
    FirstRowChunk
      (String.concat " "
         (map (fun j : nat => str_slice chunk (0 + Z.of_nat j * 2)
                                              (0 + Z.of_nat j * 2 + 2))
              (seq 0 (Z.to_nat ((Z.of_nat (String.length chunk) - 0 + 2 - 1)
                                / 2))))))
    (seq 0 (Z.to_nat ((Z.of_nat (String.length s) - 0 + 32 - 1) / 32)))).
Proof.
  unfold first_row_chunks. rewrite py_range_pos by lia. cbn [bind].
  rewrite (for_each_collect _ _ (fun i =>
    let chunk := str_slice s i (i + 32) in
    FirstRowChunk
      (String.concat " "
         (map (fun j => str_slice chunk j (j + 2))
              (map (fun j : nat => 0 + Z.of_nat j * 2)
                   (seq 0 (Z.to_nat
                      ((Z.of_nat (String.length chunk) - 0 + 2 - 1) / 2)))))))).
  - cbn [app]. rewrite map_map. f_equal. apply map_ext. intros k.
    cbv zeta. now rewrite map_map.
  - intros i printed _. rewrite py_range_pos by lia. reflexivity.
Qed.

Lemma print_patterns_returns (patterns : Patterns.t) :
  exists items : list item, print_patterns patterns = Returns items.
Proof.
  unfold print_patterns.
  destruct (Patterns.nonempty patterns); [|eauto].
  destruct (Patterns.first_row_hex patterns) as [s|]; [|eauto].
  rewrite first_row_chunks_rows. cbn [bind]. eauto.
Qed.

Lemma hexdump_returns (data : bytes) (offset length : Z) :
  0 <= offset ->
  exists text : string, hexdump data offset length 16 = Returns text.
Proof.
  intros Ho.
  destruct (hexdump_as_rows data offset length 16 Ho ltac:(lia))
    as (rows & _ & _ & ->). eauto.
Qed.

(** The dumps printed for a header returned for the same bytes. *)
Lemma print_dumps_items (data : bytes) (h : header_info) :
  analyze_header data = Returns h ->
  exists first_256 : string,
    hexdump data 0 256 16 = Returns first_256 /\
    match magic_offset h with
    | Some m =>
        if m =? 0 then
          print_dumps data h =
          Returns [Heading "First 256 bytes (header + table start):";
                   Dump first_256]
        else
          exists magic_region data_start : string,
            hexdump data (Z.max 0 (m - 32)) 64 16 = Returns magic_region /\
            hexdump data (m + 8) 128 16 = Returns data_start /\
            print_dumps data h =
            Returns [Heading "First 256 bytes (header + table start):";
                     Dump first_256;
                     Heading "Magic number region:"; Dump magic_region;
                     Heading "Data section start:"; Dump data_start]
    | None =>
        print_dumps data h =
        Returns [Heading "First 256 bytes (header + table start):";
                 Dump first_256]
    end.
Proof.
  intros H.
  destruct (hexdump_returns data 0 256 (Z.le_refl 0)) as (first_256 & H256).
  exists first_256. split; [exact H256|].
  unfold print_dumps. rewrite H256. cbn [bind].
  destruct (magic_offset h) as [m|] eqn:Hm; [|reflexivity].
  destruct (analyze_header_found data h m H Hm)
    as (Hf & _ & _ & _ & _ & Ho).
  destruct (find_magic_spec data) as [[E _] | (H0 & _)].
  { destruct (analyze_header_found data h m H Hm) as (? & ? & _).
    congruence. }
  rewrite <- Hf in H0. rewrite Ho.
  destruct (Z.eqb_spec m 0) as [Hm0 | Hm0]; [reflexivity|].
  destruct (Z.eqb_spec (m + 8) 0); [lia|]. cbn [negb andb].
  destruct (hexdump_returns data (Z.max 0 (m - 32)) 64 ltac:(lia))
    as (magic_region & Hregion).
  destruct (hexdump_returns data (m + 8) 128 ltac:(lia))
    as (data_start & Hstart).
  exists magic_region, data_start.
  rewrite Hregion, Hstart. cbn [bind app]. auto.
Qed.

Section ComparisonProperties.

Variable char_isprintable : Z -> bool.

(** The analysis of a file of at least 4 bytes: every step returns. *)
Lemma compare_file_long (name : string) (data : bytes) :
  4 <= len data ->
  exists (h : header_info) (dumps patterns : list item)
         (inferred : list line),
    analyze_header data = Returns h /\
    print_dumps data h = Returns dumps /\
    print_patterns (detect_patterns data h) = Returns patterns /\
    infer_column_types char_isprintable data h = Returns inferred /\
    compare_file char_isprintable name data =
      Returns ([Rule; FileName name; Rule] ++ print_header_info h ++
               dumps ++ patterns ++ map Inferred inferred ++ [Blank]).
Proof.
  intros Hlong.
  destruct (analyze_header_long data Hlong) as (h & Hh).
  assert (Hdumps : exists dumps, print_dumps data h = Returns dumps).
  { destruct (print_dumps_items data h Hh) as (first_256 & _ & Hd).
    destruct (magic_offset h) as [m|]; [|eauto].
    destruct (m =? 0); [eauto|].
    destruct Hd as (? & ? & _ & _ & Hd). eauto. }
  destruct Hdumps as (dumps & Hdumps).
  destruct (print_patterns_returns (detect_patterns data h))
    as (patterns & Hpatterns).
  destruct (infer_column_types_total char_isprintable data h Hh)
    as (inferred & Hinferred).
  exists h, dumps, patterns, inferred.
  repeat split; trivial.
  unfold compare_file.
  rewrite Hh. cbn [bind]. rewrite Hdumps. cbn [bind].
  rewrite Hpatterns. cbn [bind]. rewrite Hinferred. reflexivity.
Qed.





(** X17: when the sentinel is located at an offset [m] other than 0,
    the output of the analysis holds the dump of the 64 bytes that
    start at [max(0, m - 32)], and the window of that dump contains all
    8 bytes of the sentinel. *)
Theorem magic_region_dump_covers_sentinel (name : string) (data : bytes)
    (h : header_info) (m : Z) :
  analyze_header data = Returns h ->
  magic_offset h = Some m ->
  m <> 0 ->
  let start := Z.max 0 (m - 32) in
  exists (out : list item) (region : string),
    compare_file char_isprintable name data = Returns out /\
    hexdump data start 64 16 = Returns region /\
    In (Dump region) out /\
    start <= m /\ m + 8 <= Z.min (start + 64) (len data) /\
    slice data m (m + 8) = DAT_MAGIC_NUMBER.
Proof.
  intros H Hm Hm0 start.
  destruct (analyze_header_common data h H) as (Hlong & _).
  destruct (compare_file_long name data Hlong)
    as (h' & dumps & patterns & inferred & Hh & Hdumps & _ & _ & Hout).
  rewrite H in Hh. injection Hh as <-.
  destruct (print_dumps_items data h H) as (first_256 & _ & Hitems).
  rewrite Hm in Hitems. destruct (Z.eqb_spec m 0); [lia|].
  destruct Hitems as (region & data_start & Hregion & _ & Hitems).
  rewrite Hdumps in Hitems. injection Hitems as ->.
  destruct (analyze_header_found data h m H Hm) as (Hf & Hne & _).
  destruct (find_magic_spec data) as [[E _] | (H0 & Hfit & Hat & _)];
    [congruence|].
  rewrite <- Hf in *.
  eexists. exists region. split; [exact Hout|]. split; [exact Hregion|].
  split.
  - apply in_or_app. right. apply in_or_app. right.
    apply in_or_app. left. simpl. tauto.
  - subst start. repeat split; trivial; lia.
Qed.

End ComparisonProperties.

Lemma magic_region_dump_covers_sentinel_witness :
  let start := Z.max 0 (20 - 32) in
  exists (out : list item) (region : string),
    compare_file ascii_isprintable "acts.datc64" list_pointer_file =
      Returns out /\
    hexdump list_pointer_file start 64 16 = Returns region /\
    In (Dump region) out /\
    start <= 20 /\ 20 + 8 <= Z.min (start + 64) (len list_pointer_file) /\
    slice list_pointer_file 20 (20 + 8) = DAT_MAGIC_NUMBER.
Proof.
  apply (magic_region_dump_covers_sentinel ascii_isprintable "acts.datc64"
           list_pointer_file list_pointer_header 20).
  - reflexivity.
  - reflexivity.
  - lia.
Defined.

(** ** The first row, 16 bytes a line *)

Lemma format_x_byte_chars (x : byte) :
  exists c1 c2 : ascii,
    format_x 2 (byte_val x) = String c1 (String c2 EmptyString).
Proof. destruct x; eexists; eexists; reflexivity. Qed.

Lemma hex_cons (x : byte) (b : bytes) :
  hex (x :: b) = (format_x 2 (byte_val x) ++ hex b)%string.
Proof. unfold hex. cbn [map]. apply concat_empty_sep_cons. Qed.

(** A run of hex digits that starts and ends between two bytes. *)
Lemma substring_hex (b : bytes) :
  forall a n : nat,
    substring (2 * a) (2 * n) (hex b) = hex (firstn n (skipn a b)).
Proof.
  induction b as [|x b IH]; intros a n.
  - rewrite skipn_nil, firstn_nil.
    destruct a, n; reflexivity.
  - rewrite hex_cons.
    destruct (format_x_byte_chars x) as (c1 & c2 & Hx).
    rewrite Hx. cbn [append].
    destruct a as [|a].
    + destruct n as [|n]; [reflexivity|].
      cbn [skipn firstn]. rewrite hex_cons, Hx. cbn [append].
      replace (2 * S n)%nat with (S (S (2 * n))) by lia.
      change (2 * 0)%nat with 0%nat. cbn [substring].
      specialize (IH 0%nat n). cbn [skipn] in IH.
      change (2 * 0)%nat with 0%nat in IH. now rewrite IH.
    + replace (2 * S a)%nat with (S (S (2 * a))) by lia.
      cbn [skipn substring]. apply IH.
Qed.

Lemma str_slice_hex (b : bytes) (a n : Z) :
  0 <= a -> 0 <= n ->
  str_slice (hex b) (2 * a) (2 * a + 2 * n) = hex (slice b a (a + n)).
Proof.
  intros Ha Hn. unfold str_slice.
  replace (Z.to_nat (2 * a)) with (2 * Z.to_nat a)%nat by lia.
  replace (Z.to_nat (2 * a + 2 * n - 2 * a)) with (2 * Z.to_nat n)%nat by lia.
  now rewrite substring_hex, slice_firstn_skipn.
Qed.

(** The digits of each byte, read off the hex digits pair by pair. *)
Lemma hex_pairs (b : bytes) :
  map (fun j : nat => str_slice (hex b) (0 + Z.of_nat j * 2)
                                        (0 + Z.of_nat j * 2 + 2))
      (seq 0 (List.length b)) =
  map (fun x => format_x 2 (byte_val x)) b.
Proof.
  induction b as [|x b IH]; [reflexivity|].
  cbn [List.length seq map]. f_equal.
  - change (0 + Z.of_nat 0 * 2) with (2 * 0).
    change (2 * 0 + 2) with (2 * 0 + 2 * 1).
    rewrite str_slice_hex, slice_firstn_skipn by lia.
    change (Z.to_nat 1) with 1%nat. change (Z.to_nat 0) with 0%nat.
    cbn [skipn firstn].
    rewrite hex_cons. apply append_nil_r.
  - rewrite <- IH, <- seq_shift, map_map. apply map_ext. intros j.
    replace (0 + Z.of_nat (S j) * 2) with (2 * Z.of_nat (S j)) by lia.
    replace (2 * Z.of_nat (S j) + 2)
      with (2 * Z.of_nat (S j) + 2 * 1) by lia.
    replace (0 + Z.of_nat j * 2) with (2 * Z.of_nat j) by lia.
    replace (2 * Z.of_nat j + 2) with (2 * Z.of_nat j + 2 * 1) by lia.
    rewrite !str_slice_hex by lia. f_equal.
    rewrite !slice_firstn_skipn by lia.
    replace (Z.to_nat (Z.of_nat (S j))) with (S (Z.to_nat (Z.of_nat j)))
      by lia.
    reflexivity.
Qed.

(** X18: the lines printed for the first row show its bytes in order,
    16 to a line: line [k] holds the bytes
    [row[16 * k : 16 * k + 16]], each as two hex digits, separated by
    single spaces, and there are [ceil(len(row) / 16)] lines. *)
Theorem first_row_lines_show_16_bytes (row : bytes) :
  first_row_chunks (hex row) =
  Returns (map (fun k : nat =>
    FirstRowChunk
      (String.concat " "
         (map (fun x => format_x 2 (byte_val x))
              (slice row (16 * Z.of_nat k) (16 * Z.of_nat k + 16)))))
    (seq 0 (Z.to_nat ((len row + 15) / 16)))).
Proof.
  rewrite first_row_chunks_rows. f_equal.
  rewrite hex_length.
  assert (Hcount : (Z.of_nat (2 * List.length row) - 0 + 32 - 1) / 32 =
                   (len row + 15) / 16).
  { unfold len. symmetry.
    apply (Z.div_unique_pos _ 32 _
             (2 * ((Z.of_nat (List.length row) + 15) mod 16) + 1)).
    - pose proof (Z.mod_pos_bound (Z.of_nat (List.length row) + 15) 16).
      lia.
    - pose proof (Z.div_mod (Z.of_nat (List.length row) + 15) 16). lia. }
  rewrite Hcount. apply map_ext. intros k. cbv zeta.
  replace (0 + Z.of_nat k * 32) with (2 * (16 * Z.of_nat k)) by lia.
  replace (2 * (16 * Z.of_nat k) + 32)
    with (2 * (16 * Z.of_nat k) + 2 * 16) by lia.
  rewrite str_slice_hex by lia.
  set (chunk := slice row (16 * Z.of_nat k) (16 * Z.of_nat k + 16)).
  rewrite hex_length.
  replace (Z.to_nat ((Z.of_nat (2 * List.length chunk) - 0 + 2 - 1) / 2))
    with (List.length chunk).
  2:{ replace (Z.of_nat (2 * List.length chunk) - 0 + 2 - 1)
        with (1 + Z.of_nat (List.length chunk) * 2) by lia.
      rewrite Z.div_add by lia. change (1 / 2) with 0. lia. }
  now rewrite hex_pairs.
Qed.

(** Twenty bytes take two lines. *)
Example first_row_twenty_bytes :
  first_row_chunks (hex (repeat xab 20)) =
  Returns [FirstRowChunk "ab ab ab ab ab ab ab ab ab ab ab ab ab ab ab ab";
           FirstRowChunk "ab ab ab ab"].
Proof. reflexivity. Qed.

(** ** Pointers that land on a terminator *)

Lemma find_from_head (sub l : bytes) (i : Z) :
  starts_with sub l = true -> find_from sub l i = i.
Proof.
  intros H. destruct l; simpl; now rewrite H.
Qed.

Lemma find_at (data sub : bytes) (v : Z) :
  0 <= v <= len data ->
  starts_with sub (skipn (Z.to_nat v) data) = true ->
  find data sub v = v.
Proof.
  intros Hv Hs. unfold find, clamp.
  destruct (Z.ltb_spec v 0); [lia|].
  destruct (Z.ltb_spec (len data) v); [lia|].
  rewrite andb_false_r, Z.min_l by lia.
  now apply find_from_head.
Qed.

(** X19: a pointer value that lands on four zero bytes of the data
    section is reported as a string pointer with an empty preview,
    whatever surrounds those bytes: the terminator is found at the
    pointer itself and the empty text counts as printable. *)
Theorem pointer_to_terminator_is_empty_string
    (char_isprintable : Z -> bool) (data_section : bytes) (v : Z) :
  0 <= v ->
  slice data_section v (v + 4) = [x00; x00; x00; x00] ->
  describe_pointer char_isprintable data_section v = StringPointer [].
Proof.
  intros Hv Hzero.
  assert (Hfit : v + 4 <= len data_section).
  { assert (Hl : len (slice data_section v (v + 4)) = 4)
      by (rewrite Hzero; reflexivity).
    rewrite slice_firstn_skipn, len_firstn, len_skipn in Hl by lia. lia. }
  assert (Hfind : find data_section [x00; x00; x00; x00] v = v).
  { apply find_at; [lia|].
    apply (starts_with_slice [x00; x00; x00; x00] data_section (Z.to_nat v)).
    rewrite Z2Nat.id by lia. exact Hzero. }
  unfold describe_pointer. cbv zeta. rewrite Hfind.
  destruct (Z.eqb_spec v (-1)); [lia|].
  rewrite Z.sub_diag. cbn [negb andb]. change (0 <? 1000) with true.
  cbv iota.
  replace (slice data_section v v) with (@nil byte).
  2:{ replace v with (v + 0) at 2 by lia.
      now rewrite slice_firstn_skipn by lia. }
  reflexivity.
Qed.

Lemma pointer_to_terminator_is_empty_string_witness :
  describe_pointer ascii_isprintable
    [x41; x00; x00; x00; x00; x00; x07] 2 = StringPointer [].
Proof.
  apply (pointer_to_terminator_is_empty_string ascii_isprintable
           [x41; x00; x00; x00; x00; x00; x07] 2).
  - lia.
  - reflexivity.
Defined.

(** ** Pointer candidates and null markers, over the whole report *)

Section PointerCandidates.

Variable char_isprintable : Z -> bool.

(** C6: the report of a header with a positive record length is the
    banner followed by one group of lines per stride of the first
    record (a stride that does not hold 8 bytes prints nothing; a
    classification holds no column header, so the groups are the parts
    of the report between one column header and the next). In every
    group the 8-byte little-endian value [v] is reported as a pointer
    exactly when [0 < v < payload_length], the payload length being the
    data section size: within that range every classification line is a
    pointer line or a line of the list preview; outside it the
    classification is the null line alone or the two scalar lines alone,
    never a pointer of any kind. *)
Theorem pointer_candidate_iff_in_payload_range (data : bytes)
    (h : header_info) (m rl : Z) :
  analyze_header data = Returns h ->
  magic_offset h = Some m ->
  record_length h = Some rl ->
  0 < rl ->
  let payload_length := len data - m - 8 in
  data_section_size h = Some payload_length /\
  exists cols : list (list line),
    infer_column_types char_isprintable data h =
      Returns (Banner rl :: List.concat cols) /\
    List.length cols = Z.to_nat ((rl + 7) / 8) /\
    forall k : nat, (k < List.length cols)%nat ->
      (rl < 8 * Z.of_nat k + 8 -> nth_error cols k = Some []) /\
      (8 * Z.of_nat k + 8 <= rl ->
       let v := le_uint (slice data (4 + 8 * Z.of_nat k)
                               (4 + 8 * Z.of_nat k + 8)) in
       exists cls : list line,
         nth_error cols k =
           Some (ColAt (Z.of_nat k) (8 * Z.of_nat k) :: U64 v :: cls) /\
         filter is_column_header cls = [] /\
         (reports_pointer cls = true <-> 0 < v < payload_length) /\
         (0 < v < payload_length ->
          forallb is_pointer_report_line cls = true) /\
         (~ 0 < v < payload_length ->
          cls = [NullValue] \/
          cls = [U32Halves (v mod 2 ^ 32) (v / 2 ^ 32); IntegerValue])).
Proof.
  intros H Hm Hrl Hpos payload_length.
  destruct (positive_record_geometry data h m rl H Hm Hrl Hpos)
    as (_ & _ & _ & _ & Hs).
  split; [exact Hs|].
  destruct (report_groups char_isprintable data h m rl H Hm Hrl Hpos)
    as (Hpayload & cols & Hrun & Hlen & Hgroups).
  fold payload_length in Hpayload. rewrite Hpayload in Hgroups.
  exists cols. split; [exact Hrun|]. split; [exact Hlen|].
  intros k Hk. destruct (Hgroups k Hk) as (Hpart & Hfull).
  split; [exact Hpart|]. intros Hk8 v.
  destruct (Hfull Hk8) as (Hv & Hnth & Hheader). fold v in Hv, Hnth.
  eexists. split; [exact Hnth|]. split; [exact Hheader|].
  destruct (Z.lt_ge_cases 0 v) as [Hlo | Hlo];
    [destruct (Z.lt_ge_cases v payload_length) as [Hhi | Hhi]|].
  - destruct (classification_in_range char_isprintable
                (slice data 4 (4 + rl)) (slice_from data (m + 8)) rl
                payload_length (8 * Z.of_nat k)) as (Hp & _);
      [rewrite Hv; lia|].
    split; [tauto|]. split; [|lia]. intros _.
    apply classification_in_range_lines. rewrite Hv. lia.
  - destruct (classification_out_of_range char_isprintable
                (slice data 4 (4 + rl)) (slice_from data (m + 8)) rl
                payload_length (8 * Z.of_nat k)) as (Hp & Hc);
      [rewrite Hv; lia|].
    rewrite Hv in Hc. rewrite Hc, Hp in *.
    split; [split; [discriminate | lia]|]. split; [lia|].
    intros _. destruct (is_null_pattern v); tauto.
  - destruct (classification_out_of_range char_isprintable
                (slice data 4 (4 + rl)) (slice_from data (m + 8)) rl
                payload_length (8 * Z.of_nat k)) as (Hp & Hc);
      [rewrite Hv; lia|].
    rewrite Hv in Hc. rewrite Hc, Hp in *.
    split; [split; [discriminate | lia]|]. split; [lia|].
    intros _. destruct (is_null_pattern v); tauto.
Qed.

(** C10: the report of a header with a positive record length is the
    banner followed by one group of lines per stride of the first
    record (a stride that does not hold 8 bytes prints nothing; a
    classification holds no column header, so the groups are the parts
    of the report between one column header and the next). The pointer
    test comes before the null test: in every group whose value [v] has
    [0 < v < payload_length], the classification starts with a pointer
    line, holds pointer and preview lines only, and holds no null line,
    also when [v] is one of the null patterns. *)
Theorem pointer_test_precedes_null_test (data : bytes) (h : header_info)
    (m rl : Z) :
  analyze_header data = Returns h ->
  magic_offset h = Some m ->
  record_length h = Some rl ->
  0 < rl ->
  exists cols : list (list line),
    infer_column_types char_isprintable data h =
      Returns (Banner rl :: List.concat cols) /\
    List.length cols = Z.to_nat ((rl + 7) / 8) /\
    forall k : nat, (k < List.length cols)%nat ->
      (rl < 8 * Z.of_nat k + 8 -> nth_error cols k = Some []) /\
      (8 * Z.of_nat k + 8 <= rl ->
       let v := le_uint (slice data (4 + 8 * Z.of_nat k)
                               (4 + 8 * Z.of_nat k + 8)) in
       exists cls : list line,
         nth_error cols k =
           Some (ColAt (Z.of_nat k) (8 * Z.of_nat k) :: U64 v :: cls) /\
         filter is_column_header cls = [] /\
         (0 < v < len data - m - 8 ->
          reports_pointer cls = true /\
          forallb is_pointer_report_line cls = true /\
          ~ In NullValue cls)).
Proof.
  intros H Hm Hrl Hpos.
  destruct (report_groups char_isprintable data h m rl H Hm Hrl Hpos)
    as (Hpayload & cols & Hrun & Hlen & Hgroups).
  rewrite Hpayload in Hgroups.
  exists cols. split; [exact Hrun|]. split; [exact Hlen|].
  intros k Hk. destruct (Hgroups k Hk) as (Hpart & Hfull).
  split; [exact Hpart|]. intros Hk8 v.
  destruct (Hfull Hk8) as (Hv & Hnth & Hheader). fold v in Hv, Hnth.
  eexists. split; [exact Hnth|]. split; [exact Hheader|].
  intros Hrange.
  destruct (classification_in_range char_isprintable
              (slice data 4 (4 + rl)) (slice_from data (m + 8)) rl
              (len data - m - 8) (8 * Z.of_nat k)) as (Hp & Hn);
    [rewrite Hv; exact Hrange|].
  split; [exact Hp|]. split; [|exact Hn].
  apply classification_in_range_lines. rewrite Hv. exact Hrange.
Qed.

End PointerCandidates.

Lemma pointer_candidate_iff_in_payload_range_witness :
  let payload_length := len list_pointer_file - 20 - 8 in
  data_section_size list_pointer_header = Some payload_length /\
  exists cols : list (list line),
    infer_column_types ascii_isprintable list_pointer_file
                       list_pointer_header =
      Returns (Banner 16 :: List.concat cols) /\
    List.length cols = Z.to_nat ((16 + 7) / 8) /\
    forall k : nat, (k < List.length cols)%nat ->
      (16 < 8 * Z.of_nat k + 8 -> nth_error cols k = Some []) /\
      (8 * Z.of_nat k + 8 <= 16 ->
       let v := le_uint (slice list_pointer_file (4 + 8 * Z.of_nat k)
                               (4 + 8 * Z.of_nat k + 8)) in
       exists cls : list line,
         nth_error cols k =
           Some (ColAt (Z.of_nat k) (8 * Z.of_nat k) :: U64 v :: cls) /\
         filter is_column_header cls = [] /\
         (reports_pointer cls = true <-> 0 < v < payload_length) /\
         (0 < v < payload_length ->
          forallb is_pointer_report_line cls = true) /\
         (~ 0 < v < payload_length ->
          cls = [NullValue] \/
          cls = [U32Halves (v mod 2 ^ 32) (v / 2 ^ 32); IntegerValue])).
Proof.
  apply (pointer_candidate_iff_in_payload_range ascii_isprintable
           list_pointer_file list_pointer_header 20 16).
  - reflexivity.
  - reflexivity.
  - reflexivity.
  - lia.
Defined.

Lemma pointer_test_precedes_null_test_witness :
  is_null_pattern 0xA6 = true /\
  le_uint (slice a6_file 4 12) = 0xA6 /\
  0xA6 < len a6_file - 12 - 8 /\
  exists cols : list (list line),
    infer_column_types ascii_isprintable a6_file a6_header =
      Returns (Banner 8 :: List.concat cols) /\
    List.length cols = Z.to_nat ((8 + 7) / 8) /\
    forall k : nat, (k < List.length cols)%nat ->
      (8 < 8 * Z.of_nat k + 8 -> nth_error cols k = Some []) /\
      (8 * Z.of_nat k + 8 <= 8 ->
       let v := le_uint (slice a6_file (4 + 8 * Z.of_nat k)
                               (4 + 8 * Z.of_nat k + 8)) in
       exists cls : list line,
         nth_error cols k =
           Some (ColAt (Z.of_nat k) (8 * Z.of_nat k) :: U64 v :: cls) /\
         filter is_column_header cls = [] /\
         (0 < v < len a6_file - 12 - 8 ->
          reports_pointer cls = true /\
          forallb is_pointer_report_line cls = true /\
          ~ In NullValue cls)).
Proof.
  split; [reflexivity|]. split; [reflexivity|].
  split; [vm_compute; reflexivity|].
  apply (pointer_test_precedes_null_test ascii_isprintable
           a6_file a6_header 12 8).
  - reflexivity.
  - reflexivity.
  - reflexivity.
  - lia.
Defined.

Lemma list_pointer_preview_witness :
  let payload := slice_from preview_file (20 + 8) in
  exists cols : list (list line),
    infer_column_types ascii_isprintable preview_file preview_header =
      Returns (Banner 16 :: List.concat cols) /\
    List.length cols = Z.to_nat ((16 + 7) / 8) /\
    forall k : nat, (k < List.length cols)%nat ->
      (16 < 8 * Z.of_nat k + 8 -> nth_error cols k = Some []) /\
      (8 * Z.of_nat k + 8 <= 16 ->
       let v := le_uint (slice preview_file (4 + 8 * Z.of_nat k)
                               (4 + 8 * Z.of_nat k + 8)) in
       let next := le_uint (slice preview_file (4 + 8 * Z.of_nat k + 8)
                                  (4 + 8 * Z.of_nat k + 16)) in
       exists cls : list line,
         nth_error cols k =
           Some (ColAt (Z.of_nat k) (8 * Z.of_nat k) :: U64 v :: cls) /\
         filter is_column_header cls = [] /\
         (8 * Z.of_nat k + 16 <= 16 ->
          0 < v < len payload -> 0 < next < len payload ->
          exists sample : list line,
            cls = ListPointer v next :: sample /\
            (len payload < next + v * 8 -> sample = []) /\
            (next + v * 8 <= len payload ->
             let shown := slice payload next (next + Z.min 64 (v * 8)) in
             sample = [DataSectionRead; SampleHex (hex shown)] /\
             len shown = Z.min 64 (v * 8) /\
             Z.of_nat (String.length (hex shown)) =
               2 * Z.min 64 (v * 8)))).
Proof.
  apply (list_pointer_preview ascii_isprintable preview_file preview_header
           20 16).
  - reflexivity.
  - reflexivity.
  - reflexivity.
  - lia.
Defined.
